(** * go-gcf/logging: severity levels and execution ids for Cloud Functions logs

    A shallow embedding of [logging/logging.go].  The package keeps one
    process-wide handle to a cloud logging client, derives an execution id
    from a request or from the platform metadata of the invocation, and
    forwards each formatted text either to the client or to the console.

    The Go packages the file imports ([context], [net/http], [os], [fmt],
    [strings], the functions [metadata] package and the cloud [logging]
    client) are modelled to the extent the file uses them, each in a module
    of its own. *)

From Stdlib Require Import ZArith String Ascii List Lia.
From stdpp Require Import base option gmap strings list pretty.

Local Open Scope string_scope.
Local Open Scope Z_scope.

(** ** Package [strings] *)

Module Strings.

(** [strings.TrimRight(s, cutset)] with a cutset of one ASCII byte runs
    [trimRightByte]:
    [for len(s) > 0 && s[len(s)-1] == c { s = s[:len(s)-1] }].
    The loop is run on the bytes of [s]; it shortens [s] at every turn,
    so [length s] turns are enough. *)
Fixpoint trimRightByte_loop (fuel : nat) (s : list ascii) (c : ascii)
  : list ascii :=
  match fuel with
  | O => s
  | S fuel' =>
      match last s with
      | Some b =>
          if Ascii.eqb b c
          then trimRightByte_loop fuel' (removelast s) c
          else s
      | None => s
      end
  end.

Definition trimRightByte (s : string) (c : ascii) : string :=
  let bytes := list_ascii_of_string s in
  string_of_list_ascii (trimRightByte_loop (length bytes) bytes c).

(** The newline byte, ["\n"] in Go. *)
Definition LF : ascii := Ascii.ascii_of_nat 10.
(** The carriage return byte, ["\r"] in Go. *)
Definition CR : ascii := Ascii.ascii_of_nat 13.

(** [strings.TrimRight(s, "\n")], the only call the package makes. *)
Definition TrimRight_LF (s : string) : string := trimRightByte s LF.

End Strings.

(** ** Package [fmt] *)

Module Fmt.

(** The operands ([interface{}] values) handed to the print functions:
    strings, integers and booleans. *)
Inductive operand : Type :=
| OString (s : string)
| OInt (n : Z)
| OBool (b : bool).

(** [reflect.TypeOf(arg).Kind() == reflect.String] *)
Definition isString (a : operand) : bool :=
  match a with OString _ => true | _ => false end.

(** [printArg(arg, 'v')]: the default format of one operand. *)
Definition printArg (a : operand) : string :=
  match a with
  | OString s => s
  | OInt n => pretty n
  | OBool true => "true"
  | OBool false => "false"
  end.

(** [doPrint]: a space goes between two operands when neither is a
    string.  [first] is [argNum == 0], [prevString] as in the source. *)
Fixpoint doPrint (first prevString : bool) (a : list operand) : string :=
  match a with
  | [] => ""
  | arg :: rest =>
      let sep :=
        if negb first && negb (isString arg) && negb prevString
        then " " else "" in
      sep +:+ printArg arg +:+ doPrint false (isString arg) rest
  end.

(** [doPrintln]: a space goes between any two operands and a newline
    ends the text. *)
Fixpoint doPrintln (first : bool) (a : list operand) : string :=
  match a with
  | [] => String Strings.LF ""
  | arg :: rest =>
      (if first then "" else " ") +:+ printArg arg +:+ doPrintln false rest
  end.

Definition Sprint (a : list operand) : string := doPrint true false a.
Definition Sprintln (a : list operand) : string := doPrintln true a.

End Fmt.

(** ** Package [context] *)

Module Context.

(** The event metadata of an invocation ([metadata.Metadata]); the
    package reads its [EventID] only. *)
Record Metadata : Type := mkMetadata {
  EventID : string;
  EventType : string;
}.

(** The keys under which the values of a context are stored.  Go
    compares keys by type and value, so a key of the unexported type
    [contextKey] of this package equals no key of another package. *)
Inductive key : Type :=
| contextKey                  (* [contextKey{}] of this package *)
| metadataKey                 (* the key of the functions [metadata] package *)
| foreignKey (name : string). (* a key of any other package *)

#[global] Instance key_eq_dec : EqDecision key.
Proof. solve_decision. Defined.

(** The values stored in a context ([interface{}]), by dynamic type.  A
    [json.RawMessage] is kept with the outcome of decoding it into a
    [Metadata] ([None]: [json.Unmarshal] reports an error). *)
Inductive any : Type :=
| AString (s : string)
| ARawMessage (decoded : option Metadata)
| AInt (n : Z).

(** A non-nil context: the bindings added by [WithValue], the innermost
    first, above [context.Background()]. *)
Definition ctx : Type := list (key * any).

(** A [context.Context] interface value; [None] is the nil interface. *)
Definition Context : Type := option ctx.

Definition Background : ctx := [].

Definition WithValue (parent : ctx) (k : key) (v : any) : ctx :=
  (k, v) :: parent.

(** [ctx.Value(k)]: the innermost binding of [k], [None] for nil. *)
Fixpoint Value (c : ctx) (k : key) : option any :=
  match c with
  | [] => None
  | (k', v) :: parent => if decide (k' = k) then Some v else Value parent k
  end.

(** The type assertion [v, _ := x.(string)]: the zero value when [x] is
    nil or holds another type. *)
Definition assert_string (x : option any) : string :=
  match x with
  | Some (AString s) => s
  | _ => ""
  end.

End Context.

(** ** Package [cloud.google.com/go/functions/metadata] *)

Module MetadataPkg.
Import Context.

(** [metadata.FromContext(ctx)] for a non-nil [ctx], its error dropped as
    the caller drops it: the metadata when the context holds a raw
    message under the package's key and the message decodes, nil
    otherwise. *)
Definition FromContext (c : ctx) : option Metadata :=
  match Value c metadataKey with
  | Some (ARawMessage (Some meta)) => Some meta
  | _ => None
  end.

End MetadataPkg.

(** ** Package [net/http] *)

Module Http.

(** [http.Request]: the header map and the context field, which may be
    nil. *)
Record Request : Type := mkRequest {
  Header : gmap string (list string);
  req_ctx : Context.Context;
}.

(** [r.Context()]: the request's context, the background context when
    the field is nil. *)
Definition Request_Context (r : Request) : Context.ctx :=
  match req_ctx r with
  | Some c => c
  | None => Context.Background
  end.

(** [h.Get(key)] for a key in canonical form: the first value stored for
    the key, the empty string when there is none. *)
Definition Header_Get (h : gmap string (list string)) (k : string) : string :=
  match h !! k with
  | Some (v :: _) => v
  | _ => ""
  end.

End Http.

(** ** Package [os] *)

Module Os.

(** [os.Getenv(name)]: the empty string when the variable is unset. *)
Definition Getenv (env : gmap string string) (name : string) : string :=
  match env !! name with
  | Some v => v
  | None => ""
  end.

End Os.

(** ** Package [cloud.google.com/go/logging] *)

Module CloudLogging.

(** [type Severity int] *)
Definition Severity : Type := Z.

(** Modelled from the spec: the severity constants belong to the cloud
    logging client, which is not part of this repository.  The spec fixes
    nine levels in the order default, debug, info, notice, warning,
    error, critical, alert, emergency; the numbers are the ones the
    client gives them. *)
Definition Default : Severity := 0.
Definition Debug : Severity := 100.
Definition Info : Severity := 200.
Definition Notice : Severity := 300.
Definition Warning : Severity := 400.
Definition Error : Severity := 500.
Definition Critical : Severity := 600.
Definition Alert : Severity := 700.
Definition Emergency : Severity := 800.

(** [monitoredres.MonitoredResource] *)
Record MonitoredResource : Type := mkMonitoredResource {
  res_Type : string;
  res_Labels : gmap string string;
}.

(** [logging.Entry], with the fields the package sets.  A nil [Labels]
    map is the empty map. *)
Record Entry : Type := mkEntry {
  Severity_of : Severity;
  Payload : string;
  Labels : gmap string string;
}.

(** Modelled from the spec: the client's logger is external.  It has the
    log name and the resource it was made with, the link of its client,
    the entries [Log] has buffered and the entries that have reached the
    service. *)
Record Logger : Type := mkLogger {
  logID : string;
  commonResource : MonitoredResource;
  buffered : list Entry;
  transmitted : list Entry;
  transport : option string;
}.

(** [logging.Client]: the project the client is scoped to and the state
    of its link. *)
Record Client : Type := mkClient {
  parent : string;
  link : option string;
}.

(** [client.Logger(logID, logging.CommonResource(&res))] *)
Definition Client_Logger (c : Client) (id : string) (res : MonitoredResource)
  : Logger :=
  {| logID := id; commonResource := res;
     buffered := []; transmitted := []; transport := link c |}.

(** [logger.Log(entry)] *)
Definition Log (lg : Logger) (e : Entry) : Logger :=
  {| logID := logID lg; commonResource := commonResource lg;
     buffered := buffered lg ++ [e]; transmitted := transmitted lg;
     transport := transport lg |}.

(** What one call of [logger.Flush()] does is decided by the client and
    the service, outside this package: the error it returns, if any, the
    entries still buffered and the entries that have reached the service
    when it returns. *)
Record FlushResult : Type := mkFlushResult {
  flush_error : option string;
  still_buffered : list Entry;
  now_transmitted : list Entry;
}.

(** [logger.Flush()], given what the call does to the logger it finds:
    the error, if any, and the logger afterwards.  The log name, the
    resource and the link of a logger are fixed when it is made. *)
Definition Flush (result : Logger -> FlushResult) (lg : Logger)
  : option string * Logger :=
  (flush_error (result lg),
   {| logID := logID lg; commonResource := commonResource lg;
      buffered := still_buffered (result lg);
      transmitted := now_transmitted (result lg);
      transport := transport lg |}).

End CloudLogging.

(** ** Package [logging] of this repository *)

(** The state of the process the package acts on: the package variable
    [logger] ([None] is the nil pointer, [Some] the logger it points to)
    and what has been written to the two console streams. *)
Record Process : Type := mkProcess {
  logger : option CloudLogging.Logger;
  Stdout : string;
  Stderr : string;
}.

(** Statements are state transformers with a result. *)
Definition M (A : Type) : Type := Process -> A * Process.

#[export] Instance M_ret : MRet M := fun A a p => (a, p).

#[export] Instance M_bind : MBind M :=
  fun A B k m p => let (a, p') := m p in k a p'.

Definition get_logger : M (option CloudLogging.Logger) :=
  fun p => (logger p, p).

Definition set_logger (lg : option CloudLogging.Logger) : M unit :=
  fun p => (tt, {| logger := lg; Stdout := Stdout p; Stderr := Stderr p |}).

(** [fmt.Println(v...)] *)
Definition Println_Stdout (v : list Fmt.operand) : M unit :=
  fun p => (tt, {| logger := logger p;
                   Stdout := Stdout p +:+ Fmt.Sprintln v;
                   Stderr := Stderr p |}).

(** [fmt.Fprintln(os.Stderr, v...)] *)
Definition Fprintln_Stderr (v : list Fmt.operand) : M unit :=
  fun p => (tt, {| logger := logger p;
                   Stdout := Stdout p;
                   Stderr := Stderr p +:+ Fmt.Sprintln v |}).

(** The process before [init]: [logger] is nil, nothing written. *)
Definition start : Process := {| logger := None; Stdout := ""; Stderr := "" |}.

(** [func init()].  [env] is the environment of the process and
    [NewClient] the outcome of [logging.NewClient(ctx, project)]: a client
    or an error. *)
Definition init (env : gmap string string)
    (NewClient : string -> CloudLogging.Client + string) : M unit :=
  let project := Os.Getenv env "GCP_PROJECT" in
  let function := Os.Getenv env "FUNCTION_NAME" in
  let region := Os.Getenv env "FUNCTION_REGION" in
  if String.eqb project "" then
    Fprintln_Stderr [Fmt.OString "Failed to create logging client:";
                     Fmt.OString "GCP_PROJECT environment variable unset or missing"]
  else if String.eqb function "" then
    Fprintln_Stderr [Fmt.OString "Failed to create logging client:";
                     Fmt.OString "FUNCTION_NAME environment variable unset or missing"]
  else if String.eqb region "" then
    Fprintln_Stderr [Fmt.OString "Failed to create logging client:";
                     Fmt.OString "FUNCTION_REGION environment variable unset or missing"]
  else
    match NewClient project with
    | inr err =>
        Fprintln_Stderr [Fmt.OString "Failed to create logging client:";
                         Fmt.OString err]
    | inl client =>
        let res :=
          {| CloudLogging.res_Type := "cloud_function";
             CloudLogging.res_Labels :=
               <["function_name" := function]> {["region" := region]} |} in
        set_logger
          (Some (CloudLogging.Client_Logger client
                   "cloudfunctions.googleapis.com/cloud-functions" res))
    end.

(** [ForRequest] creates a logging context for the request. *)
Definition ForRequest (r : Http.Request) : Context.ctx :=
  let ctx := Http.Request_Context r in
  let id := Http.Header_Get (Http.Header r) "Function-Execution-Id" in
  if negb (String.eqb id "")
  then Context.WithValue ctx Context.contextKey (Context.AString id)
  else ctx.

Section Flush.
(** [logger.Flush()] of the client: the error, if any, and the logger
    afterwards. *)
Variable client_Flush
  : CloudLogging.Logger -> option string * CloudLogging.Logger.

(** [Flush] all loggers. *)
Definition Flush : M (option string) :=
  lg ← get_logger;
  match lg with
  | Some b =>
      let (err, b') := client_Flush b in
      set_logger (Some b');; mret err
  | None => mret None
  end.
End Flush.

(** [type Logger struct { s logging.Severity; id string }] *)
Record Logger : Type := mkLogger {
  Logger_s : CloudLogging.Severity;
  Logger_id : string;
}.

(** [func (l Logger) log(s string)] *)
Definition log (l : Logger) (s : string) : M unit :=
  let s := Strings.TrimRight_LF s in
  lg ← get_logger;
  match lg with
  | Some b =>
      let entry :=
        {| CloudLogging.Severity_of := Logger_s l;
           CloudLogging.Payload := s;
           CloudLogging.Labels := ∅ |} in
      let entry :=
        if negb (String.eqb (Logger_id l) "")
        then {| CloudLogging.Severity_of := CloudLogging.Severity_of entry;
                CloudLogging.Payload := CloudLogging.Payload entry;
                CloudLogging.Labels := {["execution_id" := Logger_id l]} |}
        else entry in
      set_logger (Some (CloudLogging.Log b entry))
  | None =>
      if CloudLogging.Error <=? Logger_s l
      then Fprintln_Stderr [Fmt.OString s]
      else Println_Stdout [Fmt.OString s]
  end.

(** [Print] logs using the default formats for its operands. *)
Definition Print (l : Logger) (v : list Fmt.operand) : M unit :=
  log l (Fmt.Sprint v).

(** [Println] logs using the default formats for its operands; spaces are
    always added between operands and a newline is appended. *)
Definition Println (l : Logger) (v : list Fmt.operand) : M unit :=
  log l (Fmt.Sprintln v).

Section Printf.
(** [fmt.Sprintf], whose verbs the package does not look at. *)
Variable Sprintf : string -> list Fmt.operand -> string.

(** [Printf] logs according to a format specifier. *)
Definition Printf (l : Logger) (format : string) (v : list Fmt.operand)
  : M unit :=
  log l (Sprintf format v).
End Printf.

(** [func newLogger(ctx context.Context, s logging.Severity) Logger] *)
Definition newLogger (ctx : Context.Context) (s : CloudLogging.Severity)
  : Logger :=
  let l := {| Logger_s := s; Logger_id := "" |} in
  match ctx with
  | Some c =>
      match MetadataPkg.FromContext c with
      | Some meta => {| Logger_s := Logger_s l; Logger_id := Context.EventID meta |}
      | None =>
          {| Logger_s := Logger_s l;
             Logger_id := Context.assert_string (Context.Value c Context.contextKey) |}
      end
  | None => l
  end.

Definition Default (ctx : Context.Context) : Logger :=
  newLogger ctx CloudLogging.Default.
Definition Debug (ctx : Context.Context) : Logger :=
  newLogger ctx CloudLogging.Debug.
Definition Info (ctx : Context.Context) : Logger :=
  newLogger ctx CloudLogging.Info.
Definition Notice (ctx : Context.Context) : Logger :=
  newLogger ctx CloudLogging.Notice.
Definition Warning (ctx : Context.Context) : Logger :=
  newLogger ctx CloudLogging.Warning.
Definition Error (ctx : Context.Context) : Logger :=
  newLogger ctx CloudLogging.Error.
Definition Critical (ctx : Context.Context) : Logger :=
  newLogger ctx CloudLogging.Critical.
Definition Alert (ctx : Context.Context) : Logger :=
  newLogger ctx CloudLogging.Alert.
Definition Emergency (ctx : Context.Context) : Logger :=
  newLogger ctx CloudLogging.Emergency.

(** The exported factories, in the order of the source, each with the
    severity constant its name stands for. *)
Definition factories
  : list (string * (Context.Context -> Logger) * CloudLogging.Severity) :=
  [ ("Default", Default, CloudLogging.Default);
    ("Debug", Debug, CloudLogging.Debug);
    ("Info", Info, CloudLogging.Info);
    ("Notice", Notice, CloudLogging.Notice);
    ("Warning", Warning, CloudLogging.Warning);
    ("Error", Error, CloudLogging.Error);
    ("Critical", Critical, CloudLogging.Critical);
    ("Alert", Alert, CloudLogging.Alert);
    ("Emergency", Emergency, CloudLogging.Emergency) ].

(** [k] newline bytes. *)
Definition newlines (k : nat) : string :=
  string_of_list_ascii (repeat Strings.LF k).

(** The text ["\n"]. *)
Definition nl : string := String Strings.LF "".

(** The text ["a"], the text ["a\n"] and the text ["a\r\n"]. *)
Definition text_a : string := "a".
Definition text_a_LF : string := String "a" (String Strings.LF "").
Definition text_a_CR_LF : string :=
  String "a" (String Strings.CR (String Strings.LF "")).
Definition text_a_CR : string := String "a" (String Strings.CR "").

(** The name of the header [ForRequest] reads and the execution id it
    finds in a request. *)
Definition execution_id_header : string := "Function-Execution-Id".

Definition header_id (r : Http.Request) : string :=
  Http.Header_Get (Http.Header r) execution_id_header.

(** What a call that goes from [p] to [p'] did, for a logger [l] and a
    payload: [sent_to_backend] hands one entry to the logger [b] of the
    client and leaves the console alone; [written_to_console] writes the
    payload and a newline to the stream the severity selects, with no
    client. *)
Definition sent_to_backend (l : Logger) (payload : string)
    (b : CloudLogging.Logger) (p p' : Process) : Prop :=
  exists e : CloudLogging.Entry,
    logger p' = Some (CloudLogging.Log b e)
    /\ CloudLogging.buffered (CloudLogging.Log b e)
       = (CloudLogging.buffered b ++ [e])%list
    /\ CloudLogging.Severity_of e = Logger_s l
    /\ CloudLogging.Payload e = payload
    /\ ((Logger_id l <> "" /\
         CloudLogging.Labels e = {["execution_id" := Logger_id l]})
        \/ (Logger_id l = "" /\ CloudLogging.Labels e = ∅))
    /\ Stdout p' = Stdout p
    /\ Stderr p' = Stderr p.

Definition written_to_console (l : Logger) (payload : string)
    (p p' : Process) : Prop :=
  logger p' = None
  /\ (CloudLogging.Error <= Logger_s l ->
      Stderr p' = Stderr p +:+ payload +:+ nl /\ Stdout p' = Stdout p)
  /\ (Logger_s l < CloudLogging.Error ->
      Stdout p' = Stdout p +:+ payload +:+ nl /\ Stderr p' = Stderr p).

(** What the importing program may do with the package after [init]: log
    a text through a Logger, or flush; a flush comes with what the client
    and the service make of it. *)
Inductive call : Type :=
| CallLog (l : Logger) (text : string)
| CallFlush (result : CloudLogging.Logger -> CloudLogging.FlushResult).

Definition run_call (c : call) (p : Process) : Process :=
  match c with
  | CallLog l text => snd (log l text p)
  | CallFlush result => snd (Flush (CloudLogging.Flush result) p)
  end.

Definition run_calls (cs : list call) (p : Process) : Process :=
  fold_left (fun q c => run_call c q) cs p.

(** The three environment variables [init] reads. *)
Definition startup_variables : list string :=
  ["GCP_PROJECT"; "FUNCTION_NAME"; "FUNCTION_REGION"].

(** The line [init] writes to the error stream when it gives up, and the
    reason it gives for a variable that reads as empty. *)
Definition warning_line (reason : string) : string :=
  "Failed to create logging client: " +:+ reason +:+ nl.

Definition missing_variable (var : string) : string :=
  var +:+ " environment variable unset or missing".

(** The resource [init] binds the client's logger to. *)
Definition log_name : string := "cloudfunctions.googleapis.com/cloud-functions".

(** [e] is an entry for the call of [log] on [l] and [text]. *)
Definition entry_for (l : Logger) (text : string) (e : CloudLogging.Entry)
  : Prop :=
  CloudLogging.Severity_of e = Logger_s l
  /\ CloudLogging.Payload e = Strings.TrimRight_LF text
  /\ ((Logger_id l <> "" /\
       CloudLogging.Labels e = {["execution_id" := Logger_id l]})
      \/ (Logger_id l = "" /\ CloudLogging.Labels e = ∅)).

(** A run of calls of [log], one for each Logger and text. *)
Definition log_calls (ts : list (Logger * string)) : list call :=
  map (fun x => CallLog x.1 x.2) ts.

(** A request with the same header as [r] whose context is the one
    [ForRequest] made for [r]: what a handler sees behind a middleware
    that has stored the logging context in the request. *)
Definition with_logging_context (r : Http.Request) : Http.Request :=
  {| Http.Header := Http.Header r; Http.req_ctx := Some (ForRequest r) |}.

(** The text a run of calls of [log] adds to the error stream
    ([to_stderr] true) or to the standard output ([to_stderr] false) when
    there is no client: the line of each call whose severity selects that
    stream, in the order of the calls. *)
Fixpoint console_text (to_stderr : bool) (ts : list (Logger * string))
  : string :=
  match ts with
  | [] => ""
  | t :: rest =>
      (if Bool.eqb (CloudLogging.Error <=? Logger_s t.1) to_stderr
       then Strings.TrimRight_LF t.2 +:+ nl
       else "")
      +:+ console_text to_stderr rest
  end.

(** ** Sample runs *)

(** An environment with the three variables set, a client that connects,
    and the process they give. *)
Definition full_env : gmap string string :=
  <["GCP_PROJECT" := "demo-project"]>
    (<["FUNCTION_NAME" := "hello"]> {["FUNCTION_REGION" := "europe-west1"]}).

Definition connect (project : string) : CloudLogging.Client + string :=
  inl {| CloudLogging.parent := project; CloudLogging.link := None |}.

Definition online : Process := snd (init full_env connect start).

Definition online_logger : CloudLogging.Logger :=
  CloudLogging.Client_Logger
    {| CloudLogging.parent := "demo-project"; CloudLogging.link := None |}
    "cloudfunctions.googleapis.com/cloud-functions"
    {| CloudLogging.res_Type := "cloud_function";
       CloudLogging.res_Labels :=
         <["function_name" := "hello"]> {["region" := "europe-west1"]} |}.

(** Two flushes: one after which every buffered entry has reached the
    service, and one after which the client reports a failed write and the
    buffered entries are gone. *)
Definition delivered (lg : CloudLogging.Logger) : CloudLogging.FlushResult :=
  {| CloudLogging.flush_error := None;
     CloudLogging.still_buffered := [];
     CloudLogging.now_transmitted :=
       (CloudLogging.transmitted lg ++ CloudLogging.buffered lg)%list |}.

Definition refused (lg : CloudLogging.Logger) : CloudLogging.FlushResult :=
  {| CloudLogging.flush_error := Some "saw 1 errors; last: rpc error: denied";
     CloudLogging.still_buffered := [];
     CloudLogging.now_transmitted := CloudLogging.transmitted lg |}.

(** A request with the execution id ["abc"] in its header, and one with
    no header at all. *)
Definition request_abc : Http.Request :=
  {| Http.Header := {[execution_id_header := ["abc"]]};
     Http.req_ctx := None |}.

Definition request_plain : Http.Request :=
  {| Http.Header := ∅; Http.req_ctx := None |}.

(** A context with the metadata of an event whose id is [id]. *)
Definition event_ctx (id : string) : Context.ctx :=
  Context.WithValue Context.Background Context.metadataKey
    (Context.ARawMessage
       (Some {| Context.EventID := id;
                Context.EventType := "google.pubsub.topic.publish" |})).

(** ** Trimming *)

Section Trim.
Import Strings.
Variable c : ascii.

Lemma trimRightByte_loop_stop (fuel : nat) (s : list ascii) :
  last s ≠ Some c -> trimRightByte_loop fuel s c = s.
Proof.
  intros Hlast. destruct fuel as [|fuel]; simpl; [reflexivity|].
  destruct (last s) as [b|] eqn:Hb; [|reflexivity].
  destruct (Ascii.eqb_spec b c) as [->|Hne]; [congruence|reflexivity].
Qed.

Lemma trimRightByte_loop_repeat (k fuel : nat) (s : list ascii) :
  (k <= fuel)%nat -> last s ≠ Some c ->
  trimRightByte_loop fuel (s ++ repeat c k)%list c = s.
Proof.
  revert fuel. induction k as [|k IH]; intros fuel Hk Hlast.
  - rewrite app_nil_r. by apply trimRightByte_loop_stop.
  - destruct fuel as [|fuel]; [lia|].
    change (repeat c (S k)) with (c :: repeat c k).
    rewrite repeat_cons, app_assoc. simpl.
    rewrite last_snoc, Ascii.eqb_refl, removelast_last.
    apply IH; [lia|done].
Qed.

Lemma list_ascii_of_string_app (s t : string) :
  list_ascii_of_string (s +:+ t)
  = (list_ascii_of_string s ++ list_ascii_of_string t)%list.
Proof. induction s as [|a s IH]; simpl; [reflexivity|]. by rewrite IH. Qed.

Lemma string_app_assoc (s t u : string) :
  (s +:+ t) +:+ u = s +:+ (t +:+ u).
Proof.
  induction s as [|a s IH]; [reflexivity|].
  change (String a ((s +:+ t) +:+ u) = String a (s +:+ (t +:+ u))).
  by rewrite IH.
Qed.

Lemma string_of_list_ascii_app (l1 l2 : list ascii) :
  string_of_list_ascii (l1 ++ l2)%list
  = string_of_list_ascii l1 +:+ string_of_list_ascii l2.
Proof. induction l1 as [|a l1 IH]; simpl; [reflexivity|]. by rewrite IH. Qed.

(** A text of [c]s alone is trimmed to nothing. *)
Lemma trimRightByte_all (k : nat) :
  trimRightByte (string_of_list_ascii (repeat c k)) c = "".
Proof.
  unfold trimRightByte. rewrite list_ascii_of_string_of_list_ascii.
  pose proof (trimRightByte_loop_repeat k (length (repeat c k)) []) as H.
  simpl in H. rewrite H; [reflexivity| |done].
  by rewrite repeat_length.
Qed.

(** A text is cut after its last byte other than [c]; what stands before
    the cut is kept as it is. *)
Lemma trimRightByte_keep (s : string) (b : ascii) (k : nat) :
  b ≠ c ->
  trimRightByte (s +:+ String b (string_of_list_ascii (repeat c k))) c
  = s +:+ String b "".
Proof.
  intros Hb. unfold trimRightByte.
  rewrite list_ascii_of_string_app. simpl.
  rewrite list_ascii_of_string_of_list_ascii.
  change (list_ascii_of_string s ++ b :: repeat c k)%list
    with (list_ascii_of_string s ++ [b] ++ repeat c k)%list.
  rewrite app_assoc.
  rewrite trimRightByte_loop_repeat.
  - rewrite string_of_list_ascii_app, string_of_list_ascii_of_string.
    reflexivity.
  - rewrite !length_app, repeat_length. lia.
  - rewrite last_snoc. congruence.
Qed.

End Trim.

(** Every text is a run of newlines, or ends its kept part with a byte
    that is not a newline. *)
Lemma string_newline_view (s : string) :
  (exists k, s = newlines k)
  \/ (exists t b k, b ≠ Strings.LF /\ s = t +:+ String b (newlines k)).
Proof.
  induction s as [|a s IH].
  - left. by exists 0%nat.
  - destruct IH as [[k ->]|(t & b & k & Hb & ->)].
    + destruct (decide (a = Strings.LF)) as [->|Ha].
      * left. by exists (S k).
      * right. by exists "", a, k.
    + right. by exists (String a t), b, k.
Qed.

Lemma TrimRight_LF_newlines (k : nat) :
  Strings.TrimRight_LF (newlines k) = "".
Proof. apply trimRightByte_all. Qed.

Lemma TrimRight_LF_keep (s : string) (b : ascii) (k : nat) :
  b ≠ Strings.LF ->
  Strings.TrimRight_LF (s +:+ String b (newlines k)) = s +:+ String b "".
Proof. apply trimRightByte_keep. Qed.

(** The trimmed text never ends with a newline. *)
Lemma snoc_string_inj (s t : string) (a b : ascii) :
  s +:+ String a "" = t +:+ String b "" -> s = t /\ a = b.
Proof.
  intros H. apply (f_equal list_ascii_of_string) in H.
  rewrite !list_ascii_of_string_app in H. simpl in H.
  apply app_inj_tail in H as [Hl ->]. split; [|reflexivity].
  rewrite <- (string_of_list_ascii_of_string s),
          <- (string_of_list_ascii_of_string t).
  by rewrite Hl.
Qed.

Lemma TrimRight_LF_no_trailing_newline (s t : string) :
  Strings.TrimRight_LF s <> t +:+ nl.
Proof.
  destruct (string_newline_view s) as [[k ->]|(u & b & k & Hb & ->)].
  - rewrite TrimRight_LF_newlines. by destruct t.
  - rewrite TrimRight_LF_keep by done. unfold nl.
    intros H. apply snoc_string_inj in H as [_ H]. done.
Qed.

(** Trimming once is enough, and a trailing newline never matters. *)
Lemma TrimRight_LF_app_newlines (s : string) (k : nat) :
  Strings.TrimRight_LF (s +:+ newlines k) = Strings.TrimRight_LF s.
Proof.
  destruct (string_newline_view s) as [[j ->]|(u & b & j & Hb & ->)].
  - unfold newlines. rewrite <- string_of_list_ascii_app, <- repeat_app.
    change (Strings.TrimRight_LF (newlines (j + k))
            = Strings.TrimRight_LF (newlines j)).
    by rewrite !TrimRight_LF_newlines.
  - rewrite TrimRight_LF_keep by done.
    replace ((u +:+ String b (newlines j)) +:+ newlines k)
      with (u +:+ String b (newlines (j + k))).
    + by apply TrimRight_LF_keep.
    + unfold newlines. rewrite repeat_app, string_of_list_ascii_app.
      rewrite string_app_assoc. reflexivity.
Qed.

(** ** The dispatch of [log] *)

Lemma Sprintln_one_string (s : string) :
  Fmt.Sprintln [Fmt.OString s] = s +:+ nl.
Proof. reflexivity. Qed.

Lemma string_app_nil_r (s : string) : s +:+ "" = s.
Proof.
  induction s as [|a s IH]; [reflexivity|].
  change (String a (s +:+ "") = String a s). by rewrite IH.
Qed.

Lemma Sprint_one_string (s : string) : Fmt.Sprint [Fmt.OString s] = s.
Proof. apply string_app_nil_r. Qed.

Lemma log_backend (l : Logger) (text : string) (p : Process)
    (b : CloudLogging.Logger) :
  logger p = Some b ->
  sent_to_backend l (Strings.TrimRight_LF text) b p (snd (log l text p)).
Proof.
  intros Hb. unfold log, mbind, M_bind, get_logger. rewrite Hb.
  destruct (String.eqb_spec (Logger_id l) "") as [Hid|Hid]; simpl;
    eexists; (split; [reflexivity|]); simpl; repeat split; auto.
Qed.

Lemma log_console (l : Logger) (text : string) (p : Process) :
  logger p = None ->
  written_to_console l (Strings.TrimRight_LF text) p (snd (log l text p)).
Proof.
  intros Hb. unfold log, mbind, M_bind, get_logger. rewrite Hb.
  destruct (Z.leb_spec CloudLogging.Error (Logger_s l)) as [Hs|Hs];
    unfold written_to_console; simpl; rewrite ?Sprintln_one_string;
    repeat split; auto; lia.
Qed.

(** ** Console fallback and remote entries *)

(** C2.  With no client ([logger] nil) a call of [Print], [Println] or
    [Printf] sends nothing: the process still has no client afterwards,
    and the trimmed text followed by a newline is appended to the error
    stream when the severity of the Logger is [Error] or higher, to the
    standard output when it is lower. *)
Theorem C2_no_backend_console_by_severity (l : Logger) (p : Process) :
  logger p = None ->
  (forall v,
      written_to_console l (Strings.TrimRight_LF (Fmt.Sprint v)) p
        (snd (Print l v p)))
  /\ (forall v,
      written_to_console l (Strings.TrimRight_LF (Fmt.Sprintln v)) p
        (snd (Println l v p)))
  /\ (forall Sprintf format v,
      written_to_console l (Strings.TrimRight_LF (Sprintf format v)) p
        (snd (Printf Sprintf l format v p))).
Proof.
  intros Hnil. repeat split; intros; by apply log_console.
Qed.

Lemma C2_witness :
  logger start = None
  /\ (forall v,
      written_to_console (Error None) (Strings.TrimRight_LF (Fmt.Sprint v))
        start (snd (Print (Error None) v start)))
  /\ (forall v,
      written_to_console (Error None) (Strings.TrimRight_LF (Fmt.Sprintln v))
        start (snd (Println (Error None) v start)))
  /\ (forall Sprintf format v,
      written_to_console (Error None)
        (Strings.TrimRight_LF (Sprintf format v))
        start (snd (Printf Sprintf (Error None) format v start))).
Proof.
  split; [reflexivity|].
  apply (C2_no_backend_console_by_severity (Error None) start).
  reflexivity.
Defined.

(** C4.  With a client ([logger] set) a call of [Print], [Println] or
    [Printf] hands the client one entry and writes nothing to the
    console: the entry has the severity of the Logger, the trimmed text as
    payload, and the one label [execution_id] exactly when the execution
    id of the Logger is not empty (no label otherwise). *)
Theorem C4_backend_entry (l : Logger) (p : Process)
    (b : CloudLogging.Logger) :
  logger p = Some b ->
  (forall v,
      sent_to_backend l (Strings.TrimRight_LF (Fmt.Sprint v)) b p
        (snd (Print l v p)))
  /\ (forall v,
      sent_to_backend l (Strings.TrimRight_LF (Fmt.Sprintln v)) b p
        (snd (Println l v p)))
  /\ (forall Sprintf format v,
      sent_to_backend l (Strings.TrimRight_LF (Sprintf format v)) b p
        (snd (Printf Sprintf l format v p))).
Proof.
  intros Hb. repeat split; intros; by apply log_backend.
Qed.

Lemma C4_witness :
  logger online = Some online_logger
  /\ (forall v,
      sent_to_backend (Info (Some (ForRequest request_abc)))
        (Strings.TrimRight_LF (Fmt.Sprint v)) online_logger online
        (snd (Print (Info (Some (ForRequest request_abc))) v online)))
  /\ (forall v,
      sent_to_backend (Info (Some (ForRequest request_abc)))
        (Strings.TrimRight_LF (Fmt.Sprintln v)) online_logger online
        (snd (Println (Info (Some (ForRequest request_abc))) v online)))
  /\ (forall Sprintf format v,
      sent_to_backend (Info (Some (ForRequest request_abc)))
        (Strings.TrimRight_LF (Sprintf format v)) online_logger online
        (snd (Printf Sprintf (Info (Some (ForRequest request_abc)))
                format v online))).
Proof.
  split; [reflexivity|].
  apply (C4_backend_entry (Info (Some (ForRequest request_abc))) online).
  reflexivity.
Defined.

(** ** Trailing newlines *)

(** C5.  The text a Logger dispatches never ends with a newline, so
    [Println("a")] and [Print("a\n")] do the same thing for every Logger
    and every process: with a client both hand over an entry whose payload
    is ["a"], without one both write ["a"] and a newline to the console. *)
Theorem C5_println_print_same_payload (l : Logger) (p : Process) :
  (forall text t, Strings.TrimRight_LF text <> t +:+ nl)
  /\ Println l [Fmt.OString text_a] p = Print l [Fmt.OString text_a_LF] p
  /\ (forall b, logger p = Some b ->
        sent_to_backend l text_a b p (snd (Println l [Fmt.OString text_a] p))
        /\ sent_to_backend l text_a b p
             (snd (Print l [Fmt.OString text_a_LF] p)))
  /\ (logger p = None ->
        written_to_console l text_a p (snd (Println l [Fmt.OString text_a] p))
        /\ written_to_console l text_a p
             (snd (Print l [Fmt.OString text_a_LF] p))).
Proof.
  split; [apply TrimRight_LF_no_trailing_newline|].
  split; [reflexivity|].
  split.
  - intros b Hb. split.
    + apply (log_backend l (Fmt.Sprintln [Fmt.OString text_a]) p b Hb).
    + apply (log_backend l (Fmt.Sprint [Fmt.OString text_a_LF]) p b Hb).
  - intros Hnil. split.
    + apply (log_console l (Fmt.Sprintln [Fmt.OString text_a]) p Hnil).
    + apply (log_console l (Fmt.Sprint [Fmt.OString text_a_LF]) p Hnil).
Qed.

Lemma C5_witness :
  logger online = Some online_logger
  /\ sent_to_backend (Warning None) text_a online_logger online
       (snd (Println (Warning None) [Fmt.OString text_a] online))
  /\ sent_to_backend (Warning None) text_a online_logger online
       (snd (Print (Warning None) [Fmt.OString text_a_LF] online)).
Proof.
  split; [reflexivity|].
  apply (C5_println_print_same_payload (Warning None) online).
  reflexivity.
Defined.

(** C10.  Only newline bytes at the end of the text are removed.  A text
    is cut after its last byte that is not a newline, whatever that byte
    is (a carriage return, a blank), and what stands before the cut, inner
    newlines included, is kept as it is; a text of newlines alone becomes
    empty.  So [Print("a\r\n")] logs the payload ["a\r"]. *)
Theorem C10_only_trailing_newlines_stripped :
  (forall (s : string) (b : ascii) (k : nat),
      b <> Strings.LF ->
      Strings.TrimRight_LF (s +:+ String b (newlines k)) = s +:+ String b "")
  /\ (forall k, Strings.TrimRight_LF (newlines k) = "")
  /\ Strings.TrimRight_LF text_a_CR_LF = text_a_CR
  /\ (forall l p b, logger p = Some b ->
        sent_to_backend l text_a_CR b p
          (snd (Print l [Fmt.OString text_a_CR_LF] p)))
  /\ (forall l p, logger p = None ->
        written_to_console l text_a_CR p
          (snd (Print l [Fmt.OString text_a_CR_LF] p))).
Proof.
  split; [apply TrimRight_LF_keep|].
  split; [apply TrimRight_LF_newlines|].
  split; [reflexivity|].
  split.
  - intros l p b Hb.
    apply (log_backend l (Fmt.Sprint [Fmt.OString text_a_CR_LF]) p b Hb).
  - intros l p Hnil.
    apply (log_console l (Fmt.Sprint [Fmt.OString text_a_CR_LF]) p Hnil).
Qed.

(** The text ["a\nb\r \n\n"] is cut to ["a\nb\r "]: the inner newline, the
    carriage return and the blank stay. *)
Lemma C10_witness :
  " "%char <> Strings.LF
  /\ Strings.TrimRight_LF
       (String "a" (String Strings.LF (String "b" (String Strings.CR "")))
        +:+ String " " (newlines 2))
     = String "a" (String Strings.LF (String "b" (String Strings.CR "")))
       +:+ String " " "".
Proof.
  split; [discriminate|].
  apply (proj1 C10_only_trailing_newlines_stripped); discriminate.
Defined.

(** ** Execution ids *)

Lemma factories_newLogger name f sev :
  (name, f, sev) ∈ factories -> forall ctx, f ctx = newLogger ctx sev.
Proof.
  unfold factories. rewrite !elem_of_cons, elem_of_nil.
  intros H ctx. destruct_or!; try done; by simplify_eq.
Qed.

Lemma newLogger_metadata c meta s :
  MetadataPkg.FromContext c = Some meta ->
  newLogger (Some c) s = {| Logger_s := s; Logger_id := Context.EventID meta |}.
Proof. intros H. unfold newLogger. by rewrite H. Qed.

Lemma newLogger_no_metadata c s :
  MetadataPkg.FromContext c = None ->
  newLogger (Some c) s
  = {| Logger_s := s;
       Logger_id := Context.assert_string (Context.Value c Context.contextKey) |}.
Proof. intros H. unfold newLogger. by rewrite H. Qed.

Lemma header_id_nonempty r :
  header_id r <> "" ->
  ForRequest r
  = Context.WithValue (Http.Request_Context r) Context.contextKey
      (Context.AString (header_id r)).
Proof.
  intros H. unfold ForRequest. fold execution_id_header. fold (header_id r).
  by destruct (String.eqb_spec (header_id r) "").
Qed.

Lemma header_id_empty r :
  header_id r = "" -> ForRequest r = Http.Request_Context r.
Proof.
  intros H. unfold ForRequest. fold execution_id_header. fold (header_id r).
  by rewrite H.
Qed.

(** C1.  The execution id of the Logger a factory returns: the event id
    of the metadata when the metadata can be read from the context,
    whatever is stored under the key of [ForRequest]; else the string
    stored under that key; else, and for a nil context, empty. *)
Theorem C1_execution_id_precedence name f sev :
  (name, f, sev) ∈ factories ->
  (forall c meta,
      MetadataPkg.FromContext c = Some meta ->
      Logger_id (f (Some c)) = Context.EventID meta)
  /\ (forall c x,
      MetadataPkg.FromContext c = None ->
      Context.Value c Context.contextKey = Some (Context.AString x) ->
      Logger_id (f (Some c)) = x)
  /\ (forall r,
      MetadataPkg.FromContext (ForRequest r) = None ->
      header_id r <> "" ->
      Logger_id (f (Some (ForRequest r))) = header_id r)
  /\ (forall c,
      MetadataPkg.FromContext c = None ->
      Context.Value c Context.contextKey = None ->
      Logger_id (f (Some c)) = "")
  /\ Logger_id (f None) = "".
Proof.
  intros Hf. pose proof (factories_newLogger _ _ _ Hf) as E.
  repeat split.
  - intros c meta Hm. by rewrite E, (newLogger_metadata _ _ _ Hm).
  - intros c x Hm Hx. by rewrite E, (newLogger_no_metadata _ _ Hm), Hx.
  - intros r Hm Hid. rewrite E, (newLogger_no_metadata _ _ Hm).
    rewrite (header_id_nonempty _ Hid). simpl.
    by destruct (decide (Context.contextKey = Context.contextKey)).
  - intros c Hm Hx. by rewrite E, (newLogger_no_metadata _ _ Hm), Hx.
  - by rewrite E.
Qed.

(** The request carries the header id ["abc"] and its context the
    metadata of the event ["evt-1"]: the Logger reports ["evt-1"]. *)
Lemma C1_witness :
  ("Notice", Notice, CloudLogging.Notice) ∈ factories
  /\ MetadataPkg.FromContext
       (ForRequest {| Http.Header := Http.Header request_abc;
                      Http.req_ctx := Some (event_ctx "evt-1") |})
     = Some {| Context.EventID := "evt-1";
               Context.EventType := "google.pubsub.topic.publish" |}
  /\ Context.Value
       (ForRequest {| Http.Header := Http.Header request_abc;
                      Http.req_ctx := Some (event_ctx "evt-1") |})
       Context.contextKey
     = Some (Context.AString "abc")
  /\ Logger_id
       (Notice
          (Some (ForRequest {| Http.Header := Http.Header request_abc;
                               Http.req_ctx := Some (event_ctx "evt-1") |})))
     = "evt-1".
Proof.
  assert (Hin : ("Notice", Notice, CloudLogging.Notice) ∈ factories).
  { unfold factories. rewrite !elem_of_cons. tauto. }
  split; [exact Hin|]. split; [reflexivity|]. split; [reflexivity|].
  apply (proj1 (C1_execution_id_precedence _ _ _ Hin)
           (ForRequest {| Http.Header := Http.Header request_abc;
                          Http.req_ctx := Some (event_ctx "evt-1") |})
           {| Context.EventID := "evt-1";
              Context.EventType := "google.pubsub.topic.publish" |}).
  reflexivity.
Defined.

Lemma header_id_present r :
  header_id r <> "" <->
  exists x rest,
    Http.Header r !! execution_id_header = Some (x :: rest) /\ x <> "".
Proof.
  unfold header_id, Http.Header_Get.
  destruct (Http.Header r !! execution_id_header) as [[|x rest]|]; split;
    try done; try (intros (x' & rest' & H & _); discriminate H).
  - intros Hx. by exists x, rest.
  - intros (x' & rest' & H & Hx). by simplify_eq.
Qed.

Lemma ForRequest_other_keys r k :
  k <> Context.contextKey ->
  Context.Value (ForRequest r) k = Context.Value (Http.Request_Context r) k.
Proof.
  intros Hk. unfold ForRequest.
  destruct (negb _); [|reflexivity]. simpl.
  destruct (decide (Context.contextKey = k)); congruence.
Qed.

Lemma ForRequest_metadata r :
  MetadataPkg.FromContext (ForRequest r)
  = MetadataPkg.FromContext (Http.Request_Context r).
Proof.
  unfold MetadataPkg.FromContext. by rewrite ForRequest_other_keys.
Qed.

(** C3.  [ForRequest] reads the execution-id header.  When the value is
    not empty the context it returns is the context of the request
    extended with that value under the key [contextKey] of this package:
    the value is found under that key, every other key reads as before,
    and a Logger made from the returned context, with no metadata to be
    read from it, has the header value as its execution id.  When the
    value is empty the context of the request is returned as it is. *)
Theorem C3_ForRequest_carries_header_id (r : Http.Request) :
  (header_id r <> "" ->
     ForRequest r
     = Context.WithValue (Http.Request_Context r) Context.contextKey
         (Context.AString (header_id r))
     /\ Context.Value (ForRequest r) Context.contextKey
        = Some (Context.AString (header_id r))
     /\ (forall k, k <> Context.contextKey ->
           Context.Value (ForRequest r) k
           = Context.Value (Http.Request_Context r) k)
     /\ (forall name f sev,
           (name, f, sev) ∈ factories ->
           MetadataPkg.FromContext (ForRequest r) = None ->
           Logger_id (f (Some (ForRequest r))) = header_id r))
  /\ (header_id r = "" -> ForRequest r = Http.Request_Context r).
Proof.
  split; [|apply header_id_empty].
  intros Hid. pose proof (header_id_nonempty r Hid) as E.
  assert (Hv : Context.Value (ForRequest r) Context.contextKey
               = Some (Context.AString (header_id r))).
  { rewrite E. simpl.
    by destruct (decide (Context.contextKey = Context.contextKey)). }
  repeat split; [exact E|exact Hv|intros; by apply ForRequest_other_keys|].
  intros name f sev Hf Hm.
  by rewrite (factories_newLogger _ _ _ Hf), (newLogger_no_metadata _ _ Hm), Hv.
Qed.

Lemma C3_witness :
  header_id request_abc <> ""
  /\ ("Debug", Debug, CloudLogging.Debug) ∈ factories
  /\ MetadataPkg.FromContext (ForRequest request_abc) = None
  /\ Logger_id (Debug (Some (ForRequest request_abc))) = "abc".
Proof.
  assert (Hid : header_id request_abc <> "") by discriminate.
  assert (Hin : ("Debug", Debug, CloudLogging.Debug) ∈ factories).
  { unfold factories. rewrite !elem_of_cons. tauto. }
  split; [exact Hid|]. split; [exact Hin|]. split; [reflexivity|].
  destruct (proj1 (C3_ForRequest_carries_header_id request_abc) Hid)
    as (_ & _ & _ & H).
  apply (H _ _ _ Hin). reflexivity.
Defined.

(** A request without the header and with a fresh context gives a Logger
    with no execution id. *)
Example ForRequest_without_header_no_id :
  ForRequest request_plain = Context.Background
  /\ Logger_id (Info (Some (ForRequest request_plain))) = "".
Proof. split; reflexivity. Qed.

(** A request without the header keeps whatever its context holds: when
    that context came from an earlier [ForRequest], the earlier id is the
    one a Logger reports. *)
Example ForRequest_without_header_keeps_earlier_id :
  header_id {| Http.Header := ∅;
               Http.req_ctx := Some (ForRequest request_abc) |} = ""
  /\ Logger_id
       (Info (Some (ForRequest
                      {| Http.Header := ∅;
                         Http.req_ctx := Some (ForRequest request_abc) |})))
     = "abc".
Proof. split; reflexivity. Qed.

(** C9.  Metadata that can be read from the context decides the execution
    id even when its event id is empty: the Logger then has an empty id,
    whatever [ForRequest] stored in the context. *)
Theorem C9_empty_event_id_hides_header_id name f sev :
  (name, f, sev) ∈ factories ->
  (forall c meta,
      MetadataPkg.FromContext c = Some meta ->
      Context.EventID meta = "" ->
      Logger_id (f (Some c)) = "")
  /\ (forall r meta,
      MetadataPkg.FromContext (Http.Request_Context r) = Some meta ->
      Context.EventID meta = "" ->
      Logger_id (f (Some (ForRequest r))) = "").
Proof.
  intros Hf. pose proof (factories_newLogger _ _ _ Hf) as E.
  assert (G : forall c meta,
             MetadataPkg.FromContext c = Some meta ->
             Context.EventID meta = "" -> Logger_id (f (Some c)) = "").
  { intros c meta Hm He. by rewrite E, (newLogger_metadata _ _ _ Hm). }
  split; [exact G|].
  intros r meta Hm He. apply (G _ meta); [|exact He].
  by rewrite ForRequest_metadata.
Qed.

(** The header id is ["abc"], the event id is empty: the Logger has no
    execution id. *)
Lemma C9_witness :
  ("Alert", Alert, CloudLogging.Alert) ∈ factories
  /\ MetadataPkg.FromContext
       (Http.Request_Context
          {| Http.Header := Http.Header request_abc;
             Http.req_ctx := Some (event_ctx "") |})
     = Some {| Context.EventID := "";
               Context.EventType := "google.pubsub.topic.publish" |}
  /\ Context.Value
       (ForRequest {| Http.Header := Http.Header request_abc;
                      Http.req_ctx := Some (event_ctx "") |})
       Context.contextKey
     = Some (Context.AString "abc")
  /\ Logger_id
       (Alert (Some (ForRequest {| Http.Header := Http.Header request_abc;
                                   Http.req_ctx := Some (event_ctx "") |})))
     = "".
Proof.
  assert (Hin : ("Alert", Alert, CloudLogging.Alert) ∈ factories).
  { unfold factories. rewrite !elem_of_cons. tauto. }
  split; [exact Hin|]. split; [reflexivity|]. split; [reflexivity|].
  apply (proj2 (C9_empty_event_id_hides_header_id _ _ _ Hin)
           {| Http.Header := Http.Header request_abc;
              Http.req_ctx := Some (event_ctx "") |}
           {| Context.EventID := "";
              Context.EventType := "google.pubsub.topic.publish" |});
    reflexivity.
Defined.

(** ** Severities *)

Lemma newLogger_severity ctx s : Logger_s (newLogger ctx s) = s.
Proof.
  unfold newLogger. destruct ctx as [c|]; [|reflexivity].
  by destruct (MetadataPkg.FromContext c).
Qed.

(** C8.  The package exports nine factories, one for each severity name;
    each returns, for every context, a Logger with the severity constant
    of its name; and the nine constants rise from [Default] to
    [Emergency]. *)
Theorem C8_nine_severity_factories :
  length factories = 9%nat
  /\ NoDup (map (fun x => x.1.1) factories)
  /\ (forall name f sev ctx,
        (name, f, sev) ∈ factories -> Logger_s (f ctx) = sev)
  /\ (forall ctx,
        Logger_s (Default ctx) = CloudLogging.Default
        /\ Logger_s (Debug ctx) = CloudLogging.Debug
        /\ Logger_s (Info ctx) = CloudLogging.Info
        /\ Logger_s (Notice ctx) = CloudLogging.Notice
        /\ Logger_s (Warning ctx) = CloudLogging.Warning
        /\ Logger_s (Error ctx) = CloudLogging.Error
        /\ Logger_s (Critical ctx) = CloudLogging.Critical
        /\ Logger_s (Alert ctx) = CloudLogging.Alert
        /\ Logger_s (Emergency ctx) = CloudLogging.Emergency)
  /\ CloudLogging.Default < CloudLogging.Debug
     < CloudLogging.Info
  /\ CloudLogging.Info < CloudLogging.Notice < CloudLogging.Warning
  /\ CloudLogging.Warning < CloudLogging.Error < CloudLogging.Critical
  /\ CloudLogging.Critical < CloudLogging.Alert < CloudLogging.Emergency.
Proof.
  split; [reflexivity|].
  split; [apply (bool_decide_unpack _); by vm_compute|].
  split.
  { intros name f sev ctx Hf.
    by rewrite (factories_newLogger _ _ _ Hf), newLogger_severity. }
  split.
  { intros ctx. repeat split; apply newLogger_severity. }
  unfold CloudLogging.Default, CloudLogging.Debug, CloudLogging.Info,
    CloudLogging.Notice, CloudLogging.Warning, CloudLogging.Error,
    CloudLogging.Critical, CloudLogging.Alert, CloudLogging.Emergency.
  lia.
Qed.

Lemma C8_witness :
  ("Critical", Critical, CloudLogging.Critical) ∈ factories
  /\ Logger_s (Critical (Some (ForRequest request_abc))) = 600.
Proof.
  assert (Hin : ("Critical", Critical, CloudLogging.Critical) ∈ factories).
  { unfold factories. rewrite !elem_of_cons. tauto. }
  split; [exact Hin|].
  destruct C8_nine_severity_factories as (_ & _ & H & _).
  apply (H _ _ _ (Some (ForRequest request_abc)) Hin).
Defined.

(** ** Flush *)

(** C6.  Without a client [Flush] returns no error and leaves the process
    as it is, whatever the [Flush] of the client would do: the client is
    not called.  With a client it calls the [Flush] of the client once on
    the logger [logger] points to and returns what that call returns, the
    error of the transmission or none; [logger] then points to the logger
    as the client left it and nothing is written to the console. *)
Theorem C6_Flush_delegates
    (client_Flush : CloudLogging.Logger -> option string * CloudLogging.Logger)
    (p : Process) :
  (logger p = None -> Flush client_Flush p = (None, p))
  /\ (forall b,
        logger p = Some b ->
        fst (Flush client_Flush p) = fst (client_Flush b)
        /\ logger (snd (Flush client_Flush p)) = Some (snd (client_Flush b))
        /\ Stdout (snd (Flush client_Flush p)) = Stdout p
        /\ Stderr (snd (Flush client_Flush p)) = Stderr p
        /\ (fst (client_Flush b) = None -> fst (Flush client_Flush p) = None)
        /\ (forall err,
              fst (client_Flush b) = Some err ->
              fst (Flush client_Flush p) = Some err)).
Proof.
  split.
  - intros Hnil. unfold Flush, mbind, M_bind, get_logger. by rewrite Hnil.
  - intros b Hb. unfold Flush, mbind, M_bind, get_logger. rewrite Hb.
    destruct (client_Flush b) as [err b']. simpl. by repeat split.
Qed.

(** Before [init] there is no client and [Flush] is a no-op, also for a
    client whose flush would fail; with the client of [online], [Flush]
    returns the error of a refused flush and no error for a delivered
    one. *)
Lemma C6_witness :
  logger start = None
  /\ Flush (CloudLogging.Flush refused) start = (None, start)
  /\ logger online = Some online_logger
  /\ fst (Flush (CloudLogging.Flush refused) online)
     = Some "saw 1 errors; last: rpc error: denied"
  /\ fst (Flush (CloudLogging.Flush delivered) online) = None
  /\ logger (snd (Flush (CloudLogging.Flush delivered) online))
     = Some (snd (CloudLogging.Flush delivered online_logger)).
Proof.
  split; [reflexivity|].
  split.
  { apply (proj1 (C6_Flush_delegates (CloudLogging.Flush refused) start)).
    reflexivity. }
  split; [reflexivity|].
  destruct (proj2 (C6_Flush_delegates (CloudLogging.Flush refused) online)
              online_logger eq_refl) as (_ & _ & _ & _ & _ & Herr).
  destruct (proj2 (C6_Flush_delegates (CloudLogging.Flush delivered) online)
              online_logger eq_refl) as (_ & Hl & _ & _ & Hnone & _).
  split; [apply Herr; reflexivity|].
  split; [apply Hnone; reflexivity|exact Hl].
Defined.

(** ** Initialization *)

Lemma Getenv_unset (env : gmap string string) (name : string) :
  env !! name = None -> Os.Getenv env name = "".
Proof. intros H. unfold Os.Getenv. by rewrite H. Qed.

(** A process without a client stays without one, whatever is logged or
    flushed. *)
Lemma run_calls_no_backend (cs : list call) (p : Process) :
  logger p = None -> logger (run_calls cs p) = None.
Proof.
  revert p. induction cs as [|c cs IH]; intros p Hnil; [exact Hnil|].
  apply IH. destruct c as [l text|result]; simpl.
  - by destruct (log_console l text p Hnil) as [H _].
  - unfold Flush, mbind, M_bind, get_logger. by rewrite Hnil.
Qed.

(** C7.  When one of the three variables reads as empty (unset or
    missing), [init] returns with [logger] still nil, having written one
    warning that names a missing variable to the error stream and nothing
    to the standard output; from then on, after any calls, [logger] is
    nil and a call of [log] writes to the console. *)
Theorem C7_missing_variable_is_soft_failure
    (env : gmap string string)
    (NewClient : string -> CloudLogging.Client + string) :
  Os.Getenv env "GCP_PROJECT" = ""
  \/ Os.Getenv env "FUNCTION_NAME" = ""
  \/ Os.Getenv env "FUNCTION_REGION" = "" ->
  logger (snd (init env NewClient start)) = None
  /\ Stdout (snd (init env NewClient start)) = ""
  /\ (exists var,
        var ∈ startup_variables
        /\ Os.Getenv env var = ""
        /\ Stderr (snd (init env NewClient start))
           = "Failed to create logging client: " +:+ var
             +:+ " environment variable unset or missing" +:+ nl)
  /\ (forall cs l text,
        logger (run_calls cs (snd (init env NewClient start))) = None
        /\ written_to_console l (Strings.TrimRight_LF text)
             (run_calls cs (snd (init env NewClient start)))
             (snd (log l text
                     (run_calls cs (snd (init env NewClient start)))))).
Proof.
  intros Hmissing.
  assert (Hnil : logger (snd (init env NewClient start)) = None
          /\ Stdout (snd (init env NewClient start)) = ""
          /\ exists var,
               var ∈ startup_variables
               /\ Os.Getenv env var = ""
               /\ Stderr (snd (init env NewClient start))
                  = "Failed to create logging client: " +:+ var
                    +:+ " environment variable unset or missing" +:+ nl).
  { assert (Hin : forall var, In var startup_variables ->
                      var ∈ startup_variables).
    { intros var Hv. by apply list_elem_of_In. }
    unfold init.
    destruct (String.eqb_spec (Os.Getenv env "GCP_PROJECT") "") as [Hp|Hp].
    { split; [reflexivity|]. split; [reflexivity|].
      exists "GCP_PROJECT". split; [apply Hin; simpl; tauto|].
      split; [exact Hp|reflexivity]. }
    destruct (String.eqb_spec (Os.Getenv env "FUNCTION_NAME") "") as [Hf|Hf].
    { split; [reflexivity|]. split; [reflexivity|].
      exists "FUNCTION_NAME". split; [apply Hin; simpl; tauto|].
      split; [exact Hf|reflexivity]. }
    destruct (String.eqb_spec (Os.Getenv env "FUNCTION_REGION") "") as [Hr|Hr].
    { split; [reflexivity|]. split; [reflexivity|].
      exists "FUNCTION_REGION". split; [apply Hin; simpl; tauto|].
      split; [exact Hr|reflexivity]. }
    tauto. }
  destruct Hnil as (Hl & Ho & He).
  split; [exact Hl|]. split; [exact Ho|]. split; [exact He|].
  intros cs l text.
  pose proof (run_calls_no_backend cs _ Hl) as Hcs.
  split; [exact Hcs|]. apply (log_console l text _ Hcs).
Qed.

(** The region alone is missing. *)
Lemma C7_witness :
  (Os.Getenv (delete "FUNCTION_REGION" full_env) "GCP_PROJECT" = ""
   \/ Os.Getenv (delete "FUNCTION_REGION" full_env) "FUNCTION_NAME" = ""
   \/ Os.Getenv (delete "FUNCTION_REGION" full_env) "FUNCTION_REGION" = "")
  /\ logger (snd (init (delete "FUNCTION_REGION" full_env) connect start))
     = None.
Proof.
  assert (H : Os.Getenv (delete "FUNCTION_REGION" full_env) "GCP_PROJECT" = ""
    \/ Os.Getenv (delete "FUNCTION_REGION" full_env) "FUNCTION_NAME" = ""
    \/ Os.Getenv (delete "FUNCTION_REGION" full_env) "FUNCTION_REGION" = "").
  { right. right. reflexivity. }
  split; [exact H|].
  apply (proj1 (C7_missing_variable_is_soft_failure _ connect H)).
Defined.

(** * Further properties of the package *)

(** ** [init]: the outcomes *)

Lemma init_project_missing env NewClient :
  Os.Getenv env "GCP_PROJECT" = "" ->
  snd (init env NewClient start)
  = {| logger := None; Stdout := "";
       Stderr := warning_line (missing_variable "GCP_PROJECT") |}.
Proof. intros H. unfold init. by rewrite H. Qed.

Lemma init_function_missing env NewClient :
  Os.Getenv env "GCP_PROJECT" <> "" ->
  Os.Getenv env "FUNCTION_NAME" = "" ->
  snd (init env NewClient start)
  = {| logger := None; Stdout := "";
       Stderr := warning_line (missing_variable "FUNCTION_NAME") |}.
Proof.
  intros Hp Hf. unfold init.
  destruct (String.eqb_spec (Os.Getenv env "GCP_PROJECT") ""); [done|].
  by rewrite Hf.
Qed.

Lemma init_region_missing env NewClient :
  Os.Getenv env "GCP_PROJECT" <> "" ->
  Os.Getenv env "FUNCTION_NAME" <> "" ->
  Os.Getenv env "FUNCTION_REGION" = "" ->
  snd (init env NewClient start)
  = {| logger := None; Stdout := "";
       Stderr := warning_line (missing_variable "FUNCTION_REGION") |}.
Proof.
  intros Hp Hf Hr. unfold init.
  destruct (String.eqb_spec (Os.Getenv env "GCP_PROJECT") ""); [done|].
  destruct (String.eqb_spec (Os.Getenv env "FUNCTION_NAME") ""); [done|].
  by rewrite Hr.
Qed.

Lemma init_all_present env NewClient :
  Os.Getenv env "GCP_PROJECT" <> "" ->
  Os.Getenv env "FUNCTION_NAME" <> "" ->
  Os.Getenv env "FUNCTION_REGION" <> "" ->
  snd (init env NewClient start)
  = match NewClient (Os.Getenv env "GCP_PROJECT") with
    | inr err =>
        {| logger := None; Stdout := ""; Stderr := warning_line err |}
    | inl client =>
        {| logger :=
             Some (CloudLogging.Client_Logger client log_name
                     {| CloudLogging.res_Type := "cloud_function";
                        CloudLogging.res_Labels :=
                          <["function_name" := Os.Getenv env "FUNCTION_NAME"]>
                            {["region" := Os.Getenv env "FUNCTION_REGION"]} |});
           Stdout := ""; Stderr := "" |}
    end.
Proof.
  intros Hp Hf Hr. unfold init.
  destruct (String.eqb_spec (Os.Getenv env "GCP_PROJECT") ""); [done|].
  destruct (String.eqb_spec (Os.Getenv env "FUNCTION_NAME") ""); [done|].
  destruct (String.eqb_spec (Os.Getenv env "FUNCTION_REGION") ""); [done|].
  by destruct (NewClient (Os.Getenv env "GCP_PROJECT")).
Qed.

Lemma warning_line_nonempty reason : warning_line reason <> "".
Proof. discriminate. Qed.

(** X1.  When the three variables are set and the client can be made for
    the project, [init] writes nothing and leaves [logger] bound to that
    client under the log name of Cloud Functions, with an empty buffer and
    the resource [cloud_function] whose labels are exactly [region] and
    [function_name], read from the environment. *)
Theorem X1_init_binds_client env NewClient client :
  Os.Getenv env "GCP_PROJECT" <> "" ->
  Os.Getenv env "FUNCTION_NAME" <> "" ->
  Os.Getenv env "FUNCTION_REGION" <> "" ->
  NewClient (Os.Getenv env "GCP_PROJECT") = inl client ->
  exists b,
    logger (snd (init env NewClient start)) = Some b
    /\ CloudLogging.logID b = log_name
    /\ CloudLogging.transport b = CloudLogging.link client
    /\ CloudLogging.buffered b = []
    /\ CloudLogging.res_Type (CloudLogging.commonResource b) = "cloud_function"
    /\ CloudLogging.res_Labels (CloudLogging.commonResource b) !! "region"
       = Some (Os.Getenv env "FUNCTION_REGION")
    /\ CloudLogging.res_Labels (CloudLogging.commonResource b)
         !! "function_name"
       = Some (Os.Getenv env "FUNCTION_NAME")
    /\ (forall k, k <> "region" -> k <> "function_name" ->
          CloudLogging.res_Labels (CloudLogging.commonResource b) !! k = None)
    /\ Stdout (snd (init env NewClient start)) = ""
    /\ Stderr (snd (init env NewClient start)) = "".
Proof.
  intros Hp Hf Hr Hc. rewrite (init_all_present _ _ Hp Hf Hr), Hc.
  eexists. split; [reflexivity|].
  cbn [CloudLogging.logID CloudLogging.transport CloudLogging.buffered
       CloudLogging.commonResource CloudLogging.res_Type
       CloudLogging.res_Labels CloudLogging.Client_Logger].
  repeat split.
  intros k Hk1 Hk2.
  rewrite lookup_insert_ne by done. by rewrite lookup_singleton_ne.
Qed.

Lemma X1_witness :
  Os.Getenv full_env "GCP_PROJECT" <> ""
  /\ Os.Getenv full_env "FUNCTION_NAME" <> ""
  /\ Os.Getenv full_env "FUNCTION_REGION" <> ""
  /\ connect (Os.Getenv full_env "GCP_PROJECT")
     = inl {| CloudLogging.parent := "demo-project";
              CloudLogging.link := None |}
  /\ exists b,
       logger (snd (init full_env connect start)) = Some b
       /\ CloudLogging.logID b = log_name
       /\ CloudLogging.transport b = None
       /\ CloudLogging.buffered b = []
       /\ CloudLogging.res_Type (CloudLogging.commonResource b)
          = "cloud_function"
       /\ CloudLogging.res_Labels (CloudLogging.commonResource b) !! "region"
          = Some (Os.Getenv full_env "FUNCTION_REGION")
       /\ CloudLogging.res_Labels (CloudLogging.commonResource b)
            !! "function_name"
          = Some (Os.Getenv full_env "FUNCTION_NAME")
       /\ (forall k, k <> "region" -> k <> "function_name" ->
             CloudLogging.res_Labels (CloudLogging.commonResource b) !! k
             = None)
       /\ Stdout (snd (init full_env connect start)) = ""
       /\ Stderr (snd (init full_env connect start)) = "".
Proof.
  split; [discriminate|]. split; [discriminate|]. split; [discriminate|].
  split; [reflexivity|].
  apply (X1_init_binds_client full_env connect
           {| CloudLogging.parent := "demo-project";
              CloudLogging.link := None |});
    [discriminate|discriminate|discriminate|reflexivity].
Defined.

(** X2.  When the three variables are set and the client cannot be made,
    [init] leaves [logger] nil and writes one line to the error stream:
    the fixed prefix, the error of the client, a newline. *)
Theorem X2_init_client_error env NewClient err :
  Os.Getenv env "GCP_PROJECT" <> "" ->
  Os.Getenv env "FUNCTION_NAME" <> "" ->
  Os.Getenv env "FUNCTION_REGION" <> "" ->
  NewClient (Os.Getenv env "GCP_PROJECT") = inr err ->
  logger (snd (init env NewClient start)) = None
  /\ Stdout (snd (init env NewClient start)) = ""
  /\ Stderr (snd (init env NewClient start))
     = "Failed to create logging client: " +:+ err +:+ nl.
Proof.
  intros Hp Hf Hr Hc. by rewrite (init_all_present _ _ Hp Hf Hr), Hc.
Qed.

Lemma X2_witness :
  Os.Getenv full_env "GCP_PROJECT" <> ""
  /\ Os.Getenv full_env "FUNCTION_NAME" <> ""
  /\ Os.Getenv full_env "FUNCTION_REGION" <> ""
  /\ (fun _ : string => inr "no credentials" : CloudLogging.Client + string)
       (Os.Getenv full_env "GCP_PROJECT")
     = inr "no credentials"
  /\ logger (snd (init full_env (fun _ => inr "no credentials") start)) = None
  /\ Stdout (snd (init full_env (fun _ => inr "no credentials") start)) = ""
  /\ Stderr (snd (init full_env (fun _ => inr "no credentials") start))
     = "Failed to create logging client: " +:+ "no credentials" +:+ nl.
Proof.
  split; [discriminate|]. split; [discriminate|]. split; [discriminate|].
  split; [reflexivity|].
  apply (X2_init_client_error full_env (fun _ => inr "no credentials")
           "no credentials");
    [discriminate|discriminate|discriminate|reflexivity].
Defined.

(** X3.  [init] sets [logger] exactly when the three variables are set
    and the client can be made for the project; it never writes to the
    standard output, and it writes to the error stream exactly when it
    leaves [logger] nil. *)
Theorem X3_init_logger_set_iff env NewClient :
  (is_Some (logger (snd (init env NewClient start)))
   <-> Os.Getenv env "GCP_PROJECT" <> ""
       /\ Os.Getenv env "FUNCTION_NAME" <> ""
       /\ Os.Getenv env "FUNCTION_REGION" <> ""
       /\ exists client, NewClient (Os.Getenv env "GCP_PROJECT") = inl client)
  /\ (logger (snd (init env NewClient start)) = None
      <-> Stderr (snd (init env NewClient start)) <> "")
  /\ Stdout (snd (init env NewClient start)) = "".
Proof.
  destruct (decide (Os.Getenv env "GCP_PROJECT" = "")) as [Hp|Hp].
  { rewrite (init_project_missing _ _ Hp). simpl.
    split; [|split; [|done]].
    - split; [by intros [? ?]|]. by intros (? & _).
    - split; [intros _; apply warning_line_nonempty|done]. }
  destruct (decide (Os.Getenv env "FUNCTION_NAME" = "")) as [Hf|Hf].
  { rewrite (init_function_missing _ _ Hp Hf). simpl.
    split; [|split; [|done]].
    - split; [by intros [? ?]|]. by intros (_ & ? & _).
    - split; [intros _; apply warning_line_nonempty|done]. }
  destruct (decide (Os.Getenv env "FUNCTION_REGION" = "")) as [Hr|Hr].
  { rewrite (init_region_missing _ _ Hp Hf Hr). simpl.
    split; [|split; [|done]].
    - split; [by intros [? ?]|]. by intros (_ & _ & ? & _).
    - split; [intros _; apply warning_line_nonempty|done]. }
  rewrite (init_all_present _ _ Hp Hf Hr).
  destruct (NewClient (Os.Getenv env "GCP_PROJECT")) as [client|err]; simpl.
  - split; [|split; [|done]].
    + split; [intros _; repeat split; eauto|by eexists].
    + split; [done|]. intros H. by contradict H.
  - split; [|split; [|done]].
    + split; [by intros [? ?]|]. by intros (_ & _ & _ & ? & ?).
    + split; [intros _; apply warning_line_nonempty|done].
Qed.

Lemma X3_witness :
  is_Some (logger (snd (init full_env connect start)))
  /\ Stderr (snd (init full_env connect start)) = "".
Proof.
  destruct (X3_init_logger_set_iff full_env connect) as (H1 & H2 & _).
  assert (Hs : is_Some (logger (snd (init full_env connect start)))).
  { apply H1. repeat split; try discriminate. by eexists. }
  split; [exact Hs|].
  destruct (decide (Stderr (snd (init full_env connect start)) = ""))
    as [E|E]; [exact E|].
  apply H2 in E. rewrite E in Hs. by destruct Hs.
Defined.

(** X4.  The variables are tested in the order project, function name,
    region, and the one warning names the first that reads as empty, even
    when later ones are empty too. *)
Theorem X4_init_names_first_missing_variable env NewClient :
  (Os.Getenv env "GCP_PROJECT" = "" ->
   Stderr (snd (init env NewClient start))
   = "Failed to create logging client: "
     +:+ "GCP_PROJECT environment variable unset or missing" +:+ nl)
  /\ (Os.Getenv env "GCP_PROJECT" <> "" ->
      Os.Getenv env "FUNCTION_NAME" = "" ->
      Stderr (snd (init env NewClient start))
      = "Failed to create logging client: "
        +:+ "FUNCTION_NAME environment variable unset or missing" +:+ nl)
  /\ (Os.Getenv env "GCP_PROJECT" <> "" ->
      Os.Getenv env "FUNCTION_NAME" <> "" ->
      Os.Getenv env "FUNCTION_REGION" = "" ->
      Stderr (snd (init env NewClient start))
      = "Failed to create logging client: "
        +:+ "FUNCTION_REGION environment variable unset or missing" +:+ nl).
Proof.
  split; [|split].
  - intros Hp. by rewrite (init_project_missing _ _ Hp).
  - intros Hp Hf. by rewrite (init_function_missing _ _ Hp Hf).
  - intros Hp Hf Hr. by rewrite (init_region_missing _ _ Hp Hf Hr).
Qed.

(** No variable is set: the warning names the project. *)
Lemma X4_witness :
  Os.Getenv ∅ "GCP_PROJECT" = ""
  /\ Os.Getenv ∅ "FUNCTION_REGION" = ""
  /\ Stderr (snd (init ∅ connect start))
     = "Failed to create logging client: "
       +:+ "GCP_PROJECT environment variable unset or missing" +:+ nl.
Proof.
  split; [reflexivity|]. split; [reflexivity|].
  apply (proj1 (X4_init_names_first_missing_variable ∅ connect)).
  reflexivity.
Defined.

(** ** Runs of calls *)

Lemma log_backend_step (l : Logger) (text : string) (p : Process)
    (b : CloudLogging.Logger) :
  logger p = Some b ->
  exists e,
    entry_for l text e
    /\ logger (snd (log l text p)) = Some (CloudLogging.Log b e)
    /\ Stdout (snd (log l text p)) = Stdout p
    /\ Stderr (snd (log l text p)) = Stderr p.
Proof.
  intros Hb.
  destruct (log_backend l text p b Hb)
    as (e & Hl & _ & Hs & Hp & Hid & Ho & He).
  exists e. by repeat split.
Qed.

Lemma Flush_backend_step client_Flush (p : Process)
    (b : CloudLogging.Logger) :
  logger p = Some b ->
  logger (snd (Flush client_Flush p)) = Some (snd (client_Flush b))
  /\ Stdout (snd (Flush client_Flush p)) = Stdout p
  /\ Stderr (snd (Flush client_Flush p)) = Stderr p.
Proof.
  intros Hb. unfold Flush, mbind, M_bind, get_logger. rewrite Hb.
  by destruct (client_Flush b).
Qed.

Lemma run_calls_cons c cs p :
  run_calls (c :: cs) p = run_calls cs (run_call c p).
Proof. reflexivity. Qed.

(** X5.  Once [logger] is set it stays set: after any calls of [log]
    and [Flush] it points to a logger of the client with the same log
    name, resource and link, and nothing has been written to the
    console. *)
Theorem X5_client_kept_console_silent (cs : list call) (p : Process)
    (b : CloudLogging.Logger) :
  logger p = Some b ->
  exists b',
    logger (run_calls cs p) = Some b'
    /\ CloudLogging.logID b' = CloudLogging.logID b
    /\ CloudLogging.commonResource b' = CloudLogging.commonResource b
    /\ CloudLogging.transport b' = CloudLogging.transport b
    /\ Stdout (run_calls cs p) = Stdout p
    /\ Stderr (run_calls cs p) = Stderr p.
Proof.
  revert p b. induction cs as [|c cs IH]; intros p b Hb.
  { exists b. by repeat split. }
  rewrite run_calls_cons.
  assert (Hstep : exists b1,
             logger (run_call c p) = Some b1
             /\ CloudLogging.logID b1 = CloudLogging.logID b
             /\ CloudLogging.commonResource b1 = CloudLogging.commonResource b
             /\ CloudLogging.transport b1 = CloudLogging.transport b
             /\ Stdout (run_call c p) = Stdout p
             /\ Stderr (run_call c p) = Stderr p).
  { destruct c as [l text|result]; simpl.
    - destruct (log_backend_step l text p b Hb) as (e & _ & Hl & Ho & He).
      eexists. split; [exact Hl|]. by repeat split.
    - destruct (Flush_backend_step (CloudLogging.Flush result) p b Hb)
        as (Hl & Ho & He).
      eexists. split; [exact Hl|]. by repeat split. }
  destruct Hstep as (b1 & Hb1 & H1 & H2 & H3 & H4 & H5).
  destruct (IH _ _ Hb1) as (b' & Hb' & G1 & G2 & G3 & G4 & G5).
  exists b'. repeat split; congruence.
Qed.

Lemma X5_witness :
  logger online = Some online_logger
  /\ exists b',
       logger (run_calls [CallLog (Error None) "disk full";
                          CallFlush refused;
                          CallLog (Info None) "retrying"] online)
       = Some b'
       /\ CloudLogging.logID b' = CloudLogging.logID online_logger
       /\ CloudLogging.commonResource b'
          = CloudLogging.commonResource online_logger
       /\ CloudLogging.transport b' = CloudLogging.transport online_logger
       /\ Stdout (run_calls [CallLog (Error None) "disk full";
                             CallFlush refused;
                             CallLog (Info None) "retrying"] online)
          = Stdout online
       /\ Stderr (run_calls [CallLog (Error None) "disk full";
                             CallFlush refused;
                             CallLog (Info None) "retrying"] online)
          = Stderr online.
Proof.
  split; [reflexivity|].
  apply (X5_client_kept_console_silent _ online online_logger).
  reflexivity.
Defined.

(** X6.  With [logger] set, a run of calls of [log] hands the client one
    entry for each call, in the order of the calls, after the entries
    already buffered: no call is dropped, merged or reordered, and a text
    that trims to nothing still gives an entry. *)
Theorem X6_entries_in_call_order (ts : list (Logger * string))
    (p : Process) (b : CloudLogging.Logger) :
  logger p = Some b ->
  exists b' es,
    logger (run_calls (log_calls ts) p) = Some b'
    /\ CloudLogging.buffered b' = (CloudLogging.buffered b ++ es)%list
    /\ CloudLogging.transmitted b' = CloudLogging.transmitted b
    /\ Forall2 (fun t e => entry_for t.1 t.2 e) ts es.
Proof.
  revert p b. induction ts as [|[l text] ts IH]; intros p b Hb.
  { exists b, []. rewrite app_nil_r. by repeat split. }
  unfold log_calls. simpl map. rewrite run_calls_cons. simpl run_call.
  destruct (log_backend_step l text p b Hb) as (e & He & Hl & _).
  destruct (IH _ _ Hl) as (b' & es & Hb' & Hbuf & Htr & Hall).
  exists b', (e :: es). split; [exact Hb'|].
  split; [|split].
  - rewrite Hbuf. simpl. by rewrite <- app_assoc.
  - by rewrite Htr.
  - by constructor.
Qed.

Lemma X6_witness :
  logger online = Some online_logger
  /\ exists b' es,
       logger (run_calls
                 (log_calls [(Info None, "one"); (Error None, "");
                             (Debug None, "three")]) online)
       = Some b'
       /\ CloudLogging.buffered b'
          = (CloudLogging.buffered online_logger ++ es)%list
       /\ CloudLogging.transmitted b' = CloudLogging.transmitted online_logger
       /\ Forall2 (fun t e => entry_for t.1 t.2 e)
            [(Info None, "one"); (Error None, ""); (Debug None, "three")] es.
Proof.
  split; [reflexivity|].
  apply (X6_entries_in_call_order _ online online_logger). reflexivity.
Defined.

Lemma log_console_step (l : Logger) (text : string) (p : Process) :
  logger p = None ->
  logger (snd (log l text p)) = None
  /\ Stdout (snd (log l text p))
     = Stdout p +:+ console_text false [(l, text)]
  /\ Stderr (snd (log l text p))
     = Stderr p +:+ console_text true [(l, text)].
Proof.
  intros Hnil. destruct (log_console l text p Hnil) as (Hl & Herr & Hout).
  split; [exact Hl|]. simpl.
  destruct (Z.leb_spec CloudLogging.Error (Logger_s l)) as [Hs|Hs]; simpl.
  - destruct (Herr Hs) as [-> ->].
    by rewrite !string_app_nil_r.
  - destruct (Hout Hs) as [-> ->].
    by rewrite !string_app_nil_r.
Qed.

Lemma console_text_cons (to_stderr : bool) (t : Logger * string) ts :
  console_text to_stderr (t :: ts)
  = console_text to_stderr [t] +:+ console_text to_stderr ts.
Proof.
  simpl. by rewrite string_app_nil_r.
Qed.

(** X7.  With [logger] nil, a run of calls of [log] leaves [logger] nil
    and appends to each stream the lines of the calls that stream
    receives, in the order of the calls: the standard output gets the
    lines of the calls below [Error], the error stream the lines of the
    others, each line being the trimmed text and one newline. *)
Theorem X7_console_lines_in_call_order (ts : list (Logger * string))
    (p : Process) :
  logger p = None ->
  logger (run_calls (log_calls ts) p) = None
  /\ Stdout (run_calls (log_calls ts) p) = Stdout p +:+ console_text false ts
  /\ Stderr (run_calls (log_calls ts) p) = Stderr p +:+ console_text true ts.
Proof.
  revert p. induction ts as [|[l text] ts IH]; intros p Hnil.
  { simpl. by rewrite !string_app_nil_r. }
  unfold log_calls. simpl map. rewrite run_calls_cons. simpl run_call.
  destruct (log_console_step l text p Hnil) as (Hl & Ho & He).
  destruct (IH _ Hl) as (Hl' & Ho' & He').
  split; [exact Hl'|].
  rewrite (console_text_cons false), (console_text_cons true).
  unfold log_calls in Ho', He'.
  rewrite Ho', He', Ho, He. by rewrite !string_app_assoc.
Qed.

Lemma X7_witness :
  logger start = None
  /\ Stdout (run_calls
               (log_calls [(Info None, "one"); (Error None, "two");
                           (Debug None, "three")]) start)
     = "one" +:+ nl +:+ "three" +:+ nl
  /\ Stderr (run_calls
               (log_calls [(Info None, "one"); (Error None, "two");
                           (Debug None, "three")]) start)
     = "two" +:+ nl.
Proof.
  split; [reflexivity|].
  destruct (X7_console_lines_in_call_order
              [(Info None, "one"); (Error None, "two"); (Debug None, "three")]
              start eq_refl) as (_ & Ho & He).
  split; [exact Ho|exact He].
Defined.

(** ** Texts that trim alike are logged alike *)

Lemma newlines_snoc (k : nat) : newlines (S k) = newlines k +:+ nl.
Proof.
  unfold newlines, nl. change (repeat Strings.LF (S k))
    with (Strings.LF :: repeat Strings.LF k).
  rewrite repeat_cons, string_of_list_ascii_app. reflexivity.
Qed.

Lemma TrimRight_LF_decompose (s : string) :
  exists k, s = Strings.TrimRight_LF s +:+ newlines k.
Proof.
  destruct (string_newline_view s) as [[k ->]|(u & b & k & Hb & ->)].
  - exists k. by rewrite TrimRight_LF_newlines.
  - exists k. rewrite TrimRight_LF_keep by done.
    by rewrite string_app_assoc.
Qed.

Lemma TrimRight_LF_idempotent (s : string) :
  Strings.TrimRight_LF (Strings.TrimRight_LF s) = Strings.TrimRight_LF s.
Proof.
  destruct (TrimRight_LF_decompose s) as [k Hk].
  rewrite Hk at 2. by rewrite TrimRight_LF_app_newlines.
Qed.

Lemma TrimRight_LF_fixed (s : string) :
  (forall t, s <> t +:+ nl) -> Strings.TrimRight_LF s = s.
Proof.
  intros Hend. destruct (TrimRight_LF_decompose s) as [[|k] Hk].
  - rewrite Hk at 2. unfold newlines. simpl. by rewrite string_app_nil_r.
  - exfalso. apply (Hend (Strings.TrimRight_LF s +:+ newlines k)).
    rewrite Hk at 1. by rewrite newlines_snoc, string_app_assoc.
Qed.

Lemma log_same_trim (l : Logger) (s t : string) :
  Strings.TrimRight_LF s = Strings.TrimRight_LF t -> log l s = log l t.
Proof. intros H. unfold log. by rewrite H. Qed.

(** X8.  Newlines at the end of the text make no difference to what is
    logged: [log] does the same for a text, for the text with any number
    of newlines added, and for the text already trimmed.  So for a single
    string [Println] and [Print] are the same call, and [Printf] is
    [Print] of the text [Sprintf] gives. *)
Theorem X8_trailing_newlines_make_no_difference (l : Logger) (s : string) :
  (forall k, log l (s +:+ newlines k) = log l s)
  /\ log l (Strings.TrimRight_LF s) = log l s
  /\ Println l [Fmt.OString s] = Print l [Fmt.OString s]
  /\ (forall Sprintf format v,
        Printf Sprintf l format v = Print l [Fmt.OString (Sprintf format v)]).
Proof.
  split; [|split; [|split]].
  - intros k. apply log_same_trim, TrimRight_LF_app_newlines.
  - apply log_same_trim, TrimRight_LF_idempotent.
  - unfold Println, Print. rewrite Sprintln_one_string, Sprint_one_string.
    apply log_same_trim. apply (TrimRight_LF_app_newlines s 1).
  - intros Sprintf format v. unfold Printf, Print.
    by rewrite Sprint_one_string.
Qed.

(** X9.  What [strings.TrimRight] removes is a run of newlines and
    nothing else: every text is its trimmed text followed by newlines;
    trimming twice is trimming once; and a text that does not end with a
    newline comes back unchanged. *)
Theorem X9_trim_removes_a_run_of_newlines (s : string) :
  (exists k, s = Strings.TrimRight_LF s +:+ newlines k)
  /\ Strings.TrimRight_LF (Strings.TrimRight_LF s) = Strings.TrimRight_LF s
  /\ ((forall t, s <> t +:+ nl) -> Strings.TrimRight_LF s = s).
Proof.
  split; [apply TrimRight_LF_decompose|].
  split; [apply TrimRight_LF_idempotent|apply TrimRight_LF_fixed].
Qed.

(** The text ["a\r"] does not end with a newline and is kept. *)
Lemma X9_witness :
  (forall t, text_a_CR <> t +:+ nl)
  /\ Strings.TrimRight_LF text_a_CR = text_a_CR.
Proof.
  assert (H : forall t, text_a_CR <> t +:+ nl).
  { intros t E. change text_a_CR with ("a" +:+ String Strings.CR "") in E.
    apply snoc_string_inj in E as [_ E]. discriminate E. }
  split; [exact H|].
  apply (proj2 (proj2 (X9_trim_removes_a_run_of_newlines text_a_CR)) H).
Defined.

(** ** Severity names and console streams *)

(** X10.  With [logger] nil, the Loggers of [Default], [Debug], [Info],
    [Notice] and [Warning] write to the standard output and those of
    [Error], [Critical], [Alert] and [Emergency] to the error stream,
    for every context; the line is the trimmed text and a newline, and
    the execution id of the Logger is not written. *)
Theorem X10_factories_select_console_stream
    (ctx : Context.Context) (text : string) (p : Process) :
  logger p = None ->
  (forall f, f ∈ [Default; Debug; Info; Notice; Warning] ->
     Stdout (snd (log (f ctx) text p))
     = Stdout p +:+ Strings.TrimRight_LF text +:+ nl
     /\ Stderr (snd (log (f ctx) text p)) = Stderr p)
  /\ (forall f, f ∈ [Error; Critical; Alert; Emergency] ->
     Stderr (snd (log (f ctx) text p))
     = Stderr p +:+ Strings.TrimRight_LF text +:+ nl
     /\ Stdout (snd (log (f ctx) text p)) = Stdout p).
Proof.
  intros Hnil. split; intros f Hf.
  - assert (Hs : Logger_s (f ctx) < CloudLogging.Error).
    { rewrite !elem_of_cons, elem_of_nil in Hf.
      destruct_or!; try done; subst f; unfold Default, Debug, Info, Notice,
        Warning; rewrite newLogger_severity; reflexivity. }
    destruct (log_console (f ctx) text p Hnil) as (_ & _ & H).
    exact (H Hs).
  - assert (Hs : CloudLogging.Error <= Logger_s (f ctx)).
    { rewrite !elem_of_cons, elem_of_nil in Hf.
      destruct_or!; try done; subst f; unfold Error, Critical, Alert,
        Emergency; rewrite newLogger_severity; discriminate. }
    destruct (log_console (f ctx) text p Hnil) as (_ & H & _).
    exact (H Hs).
Qed.

Lemma X10_witness :
  logger start = None
  /\ Stdout (snd (log (Warning (Some (ForRequest request_abc))) "slow" start))
     = Stdout start +:+ Strings.TrimRight_LF "slow" +:+ nl
  /\ Stderr (snd (log (Warning (Some (ForRequest request_abc))) "slow" start))
     = Stderr start.
Proof.
  split; [reflexivity|].
  apply (proj1 (X10_factories_select_console_stream
                  (Some (ForRequest request_abc)) "slow" start eq_refl)
           Warning).
  rewrite !elem_of_cons. tauto.
Defined.

(** ** [ForRequest] and the context it extends *)

Lemma Value_WithValue_same c k v :
  Context.Value (Context.WithValue c k v) k = Some v.
Proof. simpl. by destruct (decide (k = k)). Qed.

(** X11.  Calling [ForRequest] again on a request that already carries
    the context [ForRequest] made for it (same header) changes no Logger:
    every factory's Logger has the same severity and execution id as with
    the context of the first call. *)
Theorem X11_ForRequest_again_same_logger (r : Http.Request)
    (s : CloudLogging.Severity) :
  newLogger (Some (ForRequest (with_logging_context r))) s
  = newLogger (Some (ForRequest r)) s.
Proof.
  destruct (decide (header_id r = "")) as [Hid|Hid].
  { assert (H : header_id (with_logging_context r) = "") by exact Hid.
    by rewrite (header_id_empty _ H). }
  assert (H : header_id (with_logging_context r) <> "") by exact Hid.
  unfold newLogger.
  rewrite (ForRequest_metadata (with_logging_context r)).
  change (Http.Request_Context (with_logging_context r)) with (ForRequest r).
  destruct (MetadataPkg.FromContext (ForRequest r)); [reflexivity|].
  rewrite (header_id_nonempty _ H), Value_WithValue_same.
  change (header_id (with_logging_context r)) with (header_id r).
  by rewrite (header_id_nonempty _ Hid), Value_WithValue_same.
Qed.

(** X12.  [ForRequest] never hides or changes the metadata of the
    invocation, whatever the header holds; so when the metadata can be
    read from the context of the request, a Logger made from the context
    [ForRequest] returns is the Logger made from the context of the
    request itself. *)
Theorem X12_ForRequest_keeps_metadata (r : Http.Request) :
  MetadataPkg.FromContext (ForRequest r)
  = MetadataPkg.FromContext (Http.Request_Context r)
  /\ (forall meta s,
        MetadataPkg.FromContext (Http.Request_Context r) = Some meta ->
        newLogger (Some (ForRequest r)) s
        = newLogger (Some (Http.Request_Context r)) s).
Proof.
  split; [apply ForRequest_metadata|].
  intros meta s Hm.
  rewrite (newLogger_metadata _ _ s Hm).
  apply newLogger_metadata. by rewrite ForRequest_metadata.
Qed.

Lemma X12_witness :
  MetadataPkg.FromContext
    (Http.Request_Context
       {| Http.Header := Http.Header request_abc;
          Http.req_ctx := Some (event_ctx "evt-7") |})
  = Some {| Context.EventID := "evt-7";
            Context.EventType := "google.pubsub.topic.publish" |}
  /\ newLogger
       (Some (ForRequest {| Http.Header := Http.Header request_abc;
                            Http.req_ctx := Some (event_ctx "evt-7") |}))
       CloudLogging.Info
     = newLogger
         (Some (Http.Request_Context
                  {| Http.Header := Http.Header request_abc;
                     Http.req_ctx := Some (event_ctx "evt-7") |}))
         CloudLogging.Info.
Proof.
  split; [reflexivity|].
  apply (proj2 (X12_ForRequest_keeps_metadata
                  {| Http.Header := Http.Header request_abc;
                     Http.req_ctx := Some (event_ctx "evt-7") |})
           {| Context.EventID := "evt-7";
              Context.EventType := "google.pubsub.topic.publish" |}).
  reflexivity.
Defined.

(** ** The text of [Print] and [Println] *)

Lemma concat_cons2 (sep x y : string) (l : list string) :
  String.concat sep (x :: y :: l) = x +:+ sep +:+ String.concat sep (y :: l).
Proof. reflexivity. Qed.

Lemma doPrintln_join (a : Fmt.operand) (rest : list Fmt.operand) :
  Fmt.printArg a +:+ Fmt.doPrintln false rest
  = String.concat " " (map Fmt.printArg (a :: rest)) +:+ nl.
Proof.
  revert a. induction rest as [|a' rest IH]; intros a; [reflexivity|].
  change (map Fmt.printArg (a :: a' :: rest))
    with (Fmt.printArg a :: Fmt.printArg a' :: map Fmt.printArg rest).
  rewrite concat_cons2.
  change (Fmt.doPrintln false (a' :: rest))
    with (" " +:+ Fmt.printArg a' +:+ Fmt.doPrintln false rest).
  rewrite IH. by rewrite !string_app_assoc.
Qed.

Lemma Sprintln_join (v : list Fmt.operand) :
  Fmt.Sprintln v = String.concat " " (map Fmt.printArg v) +:+ nl.
Proof.
  destruct v as [|a rest]; [reflexivity|].
  rewrite <- doPrintln_join. reflexivity.
Qed.

Lemma doPrint_strings (ss : list string) (first prevString : bool) :
  Fmt.doPrint first prevString (map Fmt.OString ss) = String.concat "" ss.
Proof.
  revert first prevString.
  induction ss as [|s ss IH]; intros first prevString; [reflexivity|].
  change (Fmt.doPrint first prevString (map Fmt.OString (s :: ss)))
    with ((if negb first && negb true && negb prevString then " " else "")
          +:+ s +:+ Fmt.doPrint false true (map Fmt.OString ss)).
  rewrite IH, andb_false_r. simpl andb.
  destruct ss as [|s' ss]; [apply string_app_nil_r|reflexivity].
Qed.

Lemma doPrint_no_strings (a : Fmt.operand) (rest : list Fmt.operand) :
  Forall (fun x => Fmt.isString x = false) (a :: rest) ->
  Fmt.printArg a +:+ Fmt.doPrint false false rest
  = String.concat " " (map Fmt.printArg (a :: rest)).
Proof.
  revert a. induction rest as [|a' rest IH]; intros a Hall.
  { apply string_app_nil_r. }
  apply Forall_cons in Hall as [Ha Hall].
  pose proof Hall as Hall'. apply Forall_cons in Hall' as [Ha' _].
  change (map Fmt.printArg (a :: a' :: rest))
    with (Fmt.printArg a :: Fmt.printArg a' :: map Fmt.printArg rest).
  rewrite concat_cons2.
  change (Fmt.doPrint false false (a' :: rest))
    with ((if negb false && negb (Fmt.isString a') && negb false
           then " " else "")
          +:+ Fmt.printArg a'
          +:+ Fmt.doPrint false (Fmt.isString a') rest).
  rewrite Ha'. simpl andb. cbv iota.
  change (map Fmt.printArg (a' :: rest))
    with (Fmt.printArg a' :: map Fmt.printArg rest) in IH.
  by rewrite (IH a' Hall).
Qed.

(** X13.  The text [Print] logs: string operands are put together with
    nothing between them; operands none of which is a string are joined
    by single spaces; between two operands a space is put exactly when
    neither is a string. *)
Theorem X13_Print_spaces_between_non_strings (l : Logger) :
  (forall ss,
      Print l (map Fmt.OString ss) = log l (String.concat "" ss))
  /\ (forall v,
      Forall (fun x => Fmt.isString x = false) v ->
      Print l v = log l (String.concat " " (map Fmt.printArg v)))
  /\ (forall a b,
      Print l [a; b]
      = log l (Fmt.printArg a
               +:+ (if Fmt.isString a || Fmt.isString b then "" else " ")
               +:+ Fmt.printArg b)).
Proof.
  split; [|split].
  - intros ss. unfold Print, Fmt.Sprint. by rewrite doPrint_strings.
  - intros v Hall. unfold Print, Fmt.Sprint.
    destruct v as [|a rest]; [reflexivity|].
    rewrite <- (doPrint_no_strings a rest Hall).
    pose proof Hall as Ha. apply Forall_cons in Ha as [Ha _].
    change (Fmt.doPrint true false (a :: rest))
      with ("" +:+ Fmt.printArg a
            +:+ Fmt.doPrint false (Fmt.isString a) rest).
    by rewrite Ha.
  - intros a b. unfold Print, Fmt.Sprint. f_equal.
    change (Fmt.doPrint true false [a; b])
      with (Fmt.printArg a
            +:+ (if negb false && negb (Fmt.isString b)
                    && negb (Fmt.isString a)
                 then " " else "")
            +:+ Fmt.printArg b +:+ "").
    rewrite string_app_nil_r.
    by destruct (Fmt.isString a), (Fmt.isString b).
Qed.

(** [Print("id=", 7, 8, true)] logs ["id=7 8 true"]; two numbers alone
    are joined by a space. *)
Lemma X13_witness :
  Forall (fun x => Fmt.isString x = false) [Fmt.OInt 7; Fmt.OInt (-8)]
  /\ Print (Info None) [Fmt.OInt 7; Fmt.OInt (-8)] = log (Info None) "7 -8".
Proof.
  assert (H : Forall (fun x => Fmt.isString x = false)
                [Fmt.OInt 7; Fmt.OInt (-8)]).
  { repeat constructor. }
  split; [exact H|].
  apply (proj1 (proj2 (X13_Print_spaces_between_non_strings (Info None)))
           [Fmt.OInt 7; Fmt.OInt (-8)] H).
Defined.

(** X14.  The text [Println] logs is the default formats of its operands
    joined by single spaces, strings or not; the newline [Sprintln] adds
    is trimmed away again, together with any newlines the last operand
    ends with. *)
Theorem X14_Println_joins_with_spaces (l : Logger) (v : list Fmt.operand) :
  Fmt.Sprintln v = String.concat " " (map Fmt.printArg v) +:+ nl
  /\ Println l v = log l (String.concat " " (map Fmt.printArg v)).
Proof.
  split; [apply Sprintln_join|].
  unfold Println. rewrite Sprintln_join.
  apply log_same_trim.
  apply (TrimRight_LF_app_newlines _ 1).
Qed.

(** ** From the request to the entry *)

(** X15.  The whole path of the usage in the package comment,
    [logging.Info(logging.ForRequest(r)).Println(...)], with a client and
    no metadata in the context of the request: the entry handed to the
    client has the severity of the factory, the trimmed text, and the
    label [execution_id] holding the header value when the header is not
    empty; when the header is empty and the context of the request holds
    no earlier id, the entry has no label. *)
Theorem X15_request_header_labels_entry name f sev
    (r : Http.Request) (text : string) (p : Process)
    (b : CloudLogging.Logger) :
  (name, f, sev) ∈ factories ->
  logger p = Some b ->
  MetadataPkg.FromContext (Http.Request_Context r) = None ->
  exists e,
    logger (snd (log (f (Some (ForRequest r))) text p))
    = Some (CloudLogging.Log b e)
    /\ CloudLogging.Severity_of e = sev
    /\ CloudLogging.Payload e = Strings.TrimRight_LF text
    /\ (header_id r <> "" ->
        CloudLogging.Labels e = {["execution_id" := header_id r]})
    /\ (header_id r = "" ->
        Context.Value (Http.Request_Context r) Context.contextKey = None ->
        CloudLogging.Labels e = ∅).
Proof.
  intros Hf Hb Hm.
  assert (Hm' : MetadataPkg.FromContext (ForRequest r) = None)
    by (by rewrite ForRequest_metadata).
  rewrite (factories_newLogger _ _ _ Hf), (newLogger_no_metadata _ _ Hm').
  destruct (log_backend_step
              {| Logger_s := sev;
                 Logger_id := Context.assert_string
                                (Context.Value (ForRequest r)
                                   Context.contextKey) |}
              text p b Hb) as (e & (Hs & Hp & Hl) & Hlog & _).
  exists e. split; [exact Hlog|]. split; [exact Hs|]. split; [exact Hp|].
  simpl in Hl. split.
  - intros Hid. rewrite (header_id_nonempty _ Hid) in Hl.
    rewrite Value_WithValue_same in Hl. simpl in Hl.
    destruct Hl as [[_ Hl]|[Hl _]]; [exact Hl|done].
  - intros Hid Hnone. rewrite (header_id_empty _ Hid), Hnone in Hl.
    simpl in Hl. destruct Hl as [[Hl _]|[_ Hl]]; [done|exact Hl].
Qed.

Lemma X15_witness :
  ("Info", Info, CloudLogging.Info) ∈ factories
  /\ logger online = Some online_logger
  /\ MetadataPkg.FromContext (Http.Request_Context request_abc) = None
  /\ header_id request_abc <> ""
  /\ exists e,
       logger (snd (log (Info (Some (ForRequest request_abc)))
                      "Hello logs" online))
       = Some (CloudLogging.Log online_logger e)
       /\ CloudLogging.Severity_of e = CloudLogging.Info
       /\ CloudLogging.Payload e = "Hello logs"
       /\ CloudLogging.Labels e = {["execution_id" := "abc"]}.
Proof.
  assert (Hin : ("Info", Info, CloudLogging.Info) ∈ factories).
  { unfold factories. rewrite !elem_of_cons. tauto. }
  assert (Hid : header_id request_abc <> "") by discriminate.
  split; [exact Hin|]. split; [reflexivity|]. split; [reflexivity|].
  split; [exact Hid|].
  destruct (X15_request_header_labels_entry _ _ _ request_abc "Hello logs"
              online online_logger Hin eq_refl eq_refl)
    as (e & H1 & H2 & H3 & H4 & _).
  exists e. split; [exact H1|]. split; [exact H2|]. split; [exact H3|].
  exact (H4 Hid).
Defined.
